(** * NotebookLM bridge: session check and source upload

    A shallow embedding of the two scripts of [src/python-bridge]:
    - [notebooklm_auth.py]   (module [Auth]):   [check_auth_status], and
      (module [Interactive]) [authenticate_interactive], [main];
    - [notebooklm_upload.py] (module [Upload]): [get_notebooks],
      [create_notebook], [add_website_source], [add_file_source],
      [upload_sources], [list_notebooks].

    Python values are modelled as they reach the code: the state file as
    the value [json.load] hands back (or the exception it raises), the
    browser as a deterministic environment answering each Playwright call
    from the history of the run, exceptions as values that [try]/[except]/
    [finally] combinators route the way Python does. *)

From Stdlib Require Import String Ascii List ZArith Bool Arith Lia.
Import ListNotations.
Open Scope string_scope.
Open Scope list_scope.
Set Warnings "-register-all".

(** String concatenation, written as in the f-strings of the source;
    [++] stays list concatenation. *)
Infix "^" := String.append (at level 30, right associativity) : string_scope.

(** ** Python runtime fragments shared by the two scripts *)

Module Py.

(** Exceptions: every exception met here derives from [Exception]; the only
    class the code tells apart is Playwright's [TimeoutError]. [exn_text]
    is [str(e)]. *)
Inductive exn_class := PlaywrightTimeout | OtherException.

Record exn := mkExn { exn_cls : exn_class; exn_text : string }.

Definition is_timeout (e : exn) : bool :=
  match exn_cls e with PlaywrightTimeout => true | OtherException => false end.

(** A value produced by [json.load]. An object keeps its bindings as an
    association list, a key being looked up at its first binding. *)
Inductive json :=
| JNull
| JBool (b : bool)
| JInt (n : Z)
| JFloat (literal : string)
| JStr (s : string)
| JArr (items : list json)
| JObj (fields : list (string * json)).

(** [type(x).__name__] *)
Definition type_name (x : json) : string :=
  match x with
  | JNull => "NoneType"
  | JBool _ => "bool"
  | JInt _ => "int"
  | JFloat _ => "float"
  | JStr _ => "str"
  | JArr _ => "list"
  | JObj _ => "dict"
  end.

Fixpoint lookup {V} (k : string) (d : list (string * V)) : option V :=
  match d with
  | [] => None
  | (k', v) :: rest => if String.eqb k k' then Some v else lookup k rest
  end.

(** [d.get(k, default)] on a dict *)
Definition dict_get {V} (d : list (string * V)) (k : string) (default : V) : V :=
  match lookup k d with Some v => v | None => default end.

Definition AttributeError (x : json) (attr : string) : exn :=
  mkExn OtherException
    ("'" ^ type_name x ^ "' object has no attribute '" ^ attr ^ "'").

Definition TypeError (text : string) : exn := mkExn OtherException text.

(** [x.get(k, default)] on any loaded value: only a dict has [get]. *)
Definition py_get (x : json) (k : string) (default : json) : exn + json :=
  match x with
  | JObj d => inr (dict_get d k default)
  | _ => inl (AttributeError x "get")
  end.

(** The one-character strings of a [str], as iterating it yields them. *)
Fixpoint chars (s : string) : list json :=
  match s with
  | EmptyString => []
  | String c rest => JStr (String c EmptyString) :: chars rest
  end.

(** [for c in x]: the elements of a list, the keys of a dict, the
    characters of a str; anything else is not iterable. *)
Definition py_iter (x : json) : exn + list json :=
  match x with
  | JArr l => inr l
  | JObj d => inr (map (fun kv => JStr (fst kv)) d)
  | JStr s => inr (chars s)
  | _ => inl (TypeError ("'" ^ type_name x ^ "' object is not iterable"))
  end.

(** [needle in hay] on two strings: substring test. *)
Fixpoint contains (needle hay : string) : bool :=
  String.prefix needle hay ||
  match hay with
  | EmptyString => false
  | String _ rest => contains needle rest
  end.

Definition is_str (s : string) (x : json) : bool :=
  match x with JStr t => String.eqb t s | _ => false end.

(** [needle in x] with a string on the left: substring of a str, element
    of a list, key of a dict; anything else raises. *)
Definition py_in (needle : string) (x : json) : exn + bool :=
  match x with
  | JStr s => inr (contains needle s)
  | JArr l => inr (existsb (is_str needle) l)
  | JObj d => inr (existsb (fun kv => String.eqb (fst kv) needle) d)
  | _ => inl (TypeError ("argument of type '" ^ type_name x ^ "' is not iterable"))
  end.

(** Sequencing of computations that may raise. *)
Definition bindE {A C} (m : exn + A) (k : A -> exn + C) : exn + C :=
  match m with inl e => inl e | inr a => k a end.

Notation "'let?' x ':=' m 'in' k" := (bindE m (fun x => k))
  (at level 10, x name, k at level 200).

(** The state file [state.json]: absent, or present with what
    [open] + [json.load] make of it ([inl e]: one of them raises [e]). *)
Inductive file_state := Absent | Present (load : exn + json).

Definition file_exists (f : file_state) : bool :=
  match f with Absent => false | Present _ => true end.

End Py.

Export Py.

(** ** notebooklm_auth.py *)

Module Auth.

(** The dict returned by [check_auth_status]; [cookie_count] is a key of
    the authenticated answer only. *)
Record auth_result := mkAuth {
  authenticated : bool;
  message : string;
  cookie_count : option nat
}.

(** [[c for c in cookies if 'google' in c.get('domain', '')]], element by
    element; the first element that raises ends the comprehension. *)
Fixpoint keep_google (cookies : list json) : exn + list json :=
  match cookies with
  | [] => inr []
  | c :: rest =>
      let? domain := py_get c "domain" (JStr "") in
      let? hit := py_in "google" domain in
      let? kept := keep_google rest in
      inr (if hit then c :: kept else kept)
  end.

(** Lines 42-43: the cookies of the loaded state that carry the marker. *)
Definition google_cookies (state : json) : exn + list json :=
  let? cookies := py_get state "cookies" (JArr []) in
  let? items := py_iter cookies in
  keep_google items.

(** Line 42 and the iteration of line 43: the cookies the comprehension
    goes through. *)
Definition state_cookies (state : json) : exn + list json :=
  let? cookies := py_get state "cookies" (JArr []) in
  py_iter cookies.

Definition check_auth_status (state_file : file_state) : auth_result :=
  match state_file with
  | Absent =>
      mkAuth false "No authentication state found. Run authentication first." None
  | Present load =>
      match (let? state := load in google_cookies state) with
      | inr [] =>
          mkAuth false "No Google cookies found in state. Re-authenticate." None
      | inr (c :: cs) =>
          mkAuth true "Authentication state found." (Some (length (c :: cs)))
      | inl e =>
          mkAuth false ("Error reading state: " ^ exn_text e) None
      end
  end.

(** The condition of the comprehension on one cookie:
    ['google' in c.get('domain', '')], a truth value or an exception. *)
Definition cookie_hit (c : json) : exn + bool :=
  let? domain := py_get c "domain" (JStr "") in
  py_in "google" domain.

(** The condition is evaluated and true. *)
Definition hits (c : json) : bool :=
  match cookie_hit c with
  | inr hit => hit
  | inl _ => false
  end.

(** *** What the specification calls a session state

    A state written by the browser capability: an object whose [cookies],
    when present, is a list of objects whose [domain], when present, is a
    string. *)
Definition cookie_shaped (c : json) : Prop :=
  exists fields, c = JObj fields /\
    (lookup "domain" fields = None \/ exists d, lookup "domain" fields = Some (JStr d)).

Definition session_shaped (state : json) (cookies : list json) : Prop :=
  exists fields, state = JObj fields /\
    dict_get fields "cookies" (JArr []) = JArr cookies /\
    Forall cookie_shaped cookies.

(** A cookie whose domain contains the identity-provider marker. *)
Definition has_marker (c : json) : Prop :=
  exists fields d pre post,
    c = JObj fields /\ lookup "domain" fields = Some (JStr d) /\
    d = pre ^ "google" ^ post.

Definition has_markerb (c : json) : bool :=
  match c with
  | JObj fields =>
      match lookup "domain" fields with
      | Some (JStr d) => contains "google" d
      | _ => false
      end
  | _ => false
  end.

(** States for the examples. *)
Definition cookie (domain : string) : json :=
  JObj [("name", JStr "SID"); ("domain", JStr domain)].

Definition sample_cookies : list json :=
  [cookie ".google.com"; cookie "example.org"; cookie "accounts.google.com";
   JObj [("name", JStr "orphan")]].

Definition sample_state : json :=
  JObj [("cookies", JArr sample_cookies); ("origins", JArr [])].

(** The session after a run: one more cookie. *)
Definition refreshed_state : json :=
  JObj [("cookies", JArr (cookie "notebooklm.google.com" :: sample_cookies));
        ("origins", JArr [])].

(** Valid JSON that is not a session state: the second domain is [null]. *)
Definition null_domain_state : json :=
  JObj [("cookies", JArr [cookie ".google.com"; JObj [("domain", JNull)]])].

End Auth.

(** ** notebooklm_upload.py *)

Module Upload.

(** *** The browser capability *)

(** An [ElementHandle]. *)
Definition handle := nat.

(** The Playwright calls the script makes. [QuerySelector None s] is
    [page.query_selector(s)], [QuerySelector (Some card) s] is
    [card.query_selector(s)]. [Fill] and [SetInputFiles] carry the value
    the script passes, which for a source is whatever the request holds. *)
Inductive call :=
| PlaywrightStart
| PlaywrightStop
| Launch (headless : bool)
| NewContext (storage_state : string)
| NewPage
| Goto (url : string)
| WaitForLoadState (state : string)
| WaitForSelector (selector : string) (timeout_ms : N)
| QuerySelectorAll (selector : string)
| QuerySelector (scope : option handle) (selector : string)
| InnerText (el : handle)
| Click (el : handle)
| Fill (el : handle) (text : json)
| Press (el : handle) (key : string)
| SetInputFiles (el : handle) (path : json)
| StorageState (path : string)
| Close.

(** What a call hands back when it does not raise. *)
Definition ret (c : call) : Set :=
  match c with
  | QuerySelectorAll _ => list handle
  | QuerySelector _ _ => option handle
  | InnerText _ => string
  | StorageState _ => json
  | _ => unit
  end.

(** The history of a run: every call with its answer, every [time.sleep]
    (in milliseconds, as the timeouts) and every line printed to [sys.stderr]. *)
Inductive event :=
| Ev (c : call) (r : exn + ret c)
| Slept (ms : N)
| Stderr (line : string).

(** The capability: a deterministic environment that answers a call from
    the history so far, by a value or by raising. *)
Definition browser := list event -> forall c : call, exn + ret c.

(** What the script can observe and change besides its own variables. *)
Record world := mkWorld {
  trace : list event;
  state_file : file_state;
  path_exists : string -> bool;    (* [os.path.exists] on local paths *)
  stat_other : json -> exn + bool  (* [os.path.exists] on a value that is not
                                      a str: an integer is taken as a file
                                      descriptor, other values raise *)
}.

(** The world after more events. *)
Definition logs (events : list event) (w : world) : world :=
  mkWorld (trace w ++ events) (state_file w) (path_exists w) (stat_other w).

Definition log (e : event) (w : world) : world := logs [e] w.

Definition write_state (j : json) (w : world) : world :=
  mkWorld (trace w) (Present (inr j)) (path_exists w) (stat_other w).

(** *** Computations: a world passed along, a value or an exception *)

Inductive res (A : Type) := Ok (a : A) | Raised (e : exn).
Arguments Ok {A} a.
Arguments Raised {A} e.

Definition M (A : Type) := world -> res A * world.

Definition pure {A} (a : A) : M A := fun w => (Ok a, w).

Definition bind {A C} (m : M A) (k : A -> M C) : M C :=
  fun w => match m w with
           | (Ok a, w1) => k a w1
           | (Raised e, w1) => (Raised e, w1)
           end.

Notation "x <- m ;; k" := (bind m (fun x => k))
  (at level 61, m at next level, right associativity).
Notation "m ;; k" := (bind m (fun _ => k))
  (at level 61, right associativity).

(** [try: body / except Exception as e: handler e] *)
Definition try_except {A} (body : M A) (handler : exn -> M A) : M A :=
  fun w => match body w with
           | (Ok a, w1) => (Ok a, w1)
           | (Raised e, w1) => handler e w1
           end.

(** [try: body / finally: cleanup]: the cleanup runs on every exit of the
    body; an exception of the cleanup replaces the pending outcome. *)
Definition finally {A} (body : M A) (cleanup : M unit) : M A :=
  fun w => match body w with
           | (r, w1) => match cleanup w1 with
                        | (Ok _, w2) => (r, w2)
                        | (Raised e, w2) => (Raised e, w2)
                        end
           end.

(** A block that updates a local object [S] in place: when it is left,
    by falling off its end, by [return] or by an exception, the object
    keeps what was done to it so far. *)
Inductive exit := Fell | Returned | Threw (e : exn).

Definition block (S : Type) := world -> (S * exit) * world.

Definition leave {S} (s : S) (x : exit) : block S := fun w => ((s, x), w).

Definition step {S A} (m : M A) (s : S) (k : A -> block S) : block S :=
  fun w => match m w with
           | (Ok a, w1) => k a w1
           | (Raised e, w1) => ((s, Threw e), w1)
           end.

Definition sleep (ms : N) : M unit := fun w => (Ok tt, log (Slept ms) w).

Definition print_stderr (line : string) : M unit :=
  fun w => (Ok tt, log (Stderr line) w).

(** A value that is computed without the world, or an exception. *)
Definition lift {A} (r : exn + A) : M A :=
  fun w => (match r with inl e => Raised e | inr a => Ok a end, w).

(** [os.path.exists(path)]: a truth value, or an exception when [path]
    is not a str. *)
Definition path_check (w : world) (path : json) : exn + bool :=
  match path with
  | JStr s => inr (path_exists w s)
  | _ => stat_other w path
  end.

Definition os_path_exists (path : json) : M bool :=
  fun w => lift (path_check w path) w.

(** [STATE_PATH]: [state.json] beside the script. *)
Definition STATE_PATH : string := "state.json".
Definition NOTEBOOKLM_URL : string := "https://notebooklm.google.com/".

(** The selectors of the source; [dq] is the double quote inside them. *)
Definition dq : string := String (ascii_of_nat 34) EmptyString.
Definition test_id (name : string) : string := "[data-test-id=" ^ dq ^ name ^ dq ^ "]".
Definition button_text (text : string) : string := "button:has-text(" ^ dq ^ text ^ dq ^ ")".

Definition NOTEBOOK_CARD := test_id "notebook-card".
Definition NOTEBOOK_TITLE := test_id "notebook-title".
Definition CREATE_NEW := button_text "Create new".
Definition CREATE_BUTTON := test_id "create-notebook-button".
Definition NAME_INPUT := "input[placeholder*=" ^ dq ^ "name" ^ dq ^ "]".
Definition ADD_SOURCE := button_text "Add source".
Definition ADD_SOURCE_BUTTON := test_id "add-source-button".
Definition WEBSITE := button_text "Website".
Definition SOURCE_TYPE_WEBSITE := test_id "source-type-website".
Definition URL_INPUT :=
  "input[type=" ^ dq ^ "url" ^ dq ^ "], input[placeholder*=" ^ dq ^ "URL" ^ dq ^ "]".
Definition WEBSITE_URL_INPUT := test_id "website-url-input".
Definition UPLOAD := button_text "Upload".
Definition SOURCE_TYPE_UPLOAD := test_id "source-type-upload".
Definition FILE_INPUT := "input[type=" ^ dq ^ "file" ^ dq ^ "]".

(** *** The dicts of the script *)

(** An entry of [get_notebooks]: [{"title": ..., "element": card}]. *)
Record notebook := mkNotebook { title : string; element : handle }.

(** What [add_website_source] and [add_file_source] return. *)
Record add_result := mkAdd {
  ar_success : bool;
  ar_error : option string;
  ar_url : option json;
  ar_file : option json
}.

Definition failure (error : string) : add_result := mkAdd false (Some error) None None.
Definition added_url (url : json) : add_result := mkAdd true None (Some url) None.
Definition added_file (path : json) : add_result := mkAdd true None None (Some path).

(** A source request as [main] hands it over: an element of the decoded
    JSON, which nothing has validated. It is meant to be a dict with the
    keys [type] and [value]. *)
Definition source : Type := json.

(** An entry of [results["failed"]]. *)
Record failed_entry := mkFailed { f_value : json; f_error : string }.

(** The [results] dict of [upload_sources]. *)
Record upload_result := mkResults {
  ur_success : bool;
  ur_notebook : string;
  ur_uploaded : list json;
  ur_failed : list failed_entry;
  ur_error : option string
}.

(** The success dict of [list_notebooks]. *)
Record list_result := mkListing {
  lr_success : bool;
  lr_notebooks : list string;
  lr_count : nat
}.

(** What the two entry points return: [ErrorReply e] is the bare dict
    [{"success": False, "error": e}], [Reply r] a full result. *)
Inductive reply (R : Type) := ErrorReply (error : string) | Reply (r : R).
Arguments ErrorReply {R} error.
Arguments Reply {R} r.

Definition uploaded_append (results : upload_result) (value : json) :=
  mkResults (ur_success results) (ur_notebook results)
            (ur_uploaded results ++ [value]) (ur_failed results) (ur_error results).

Definition failed_append (results : upload_result) (entry : failed_entry) :=
  mkResults (ur_success results) (ur_notebook results)
            (ur_uploaded results) (ur_failed results ++ [entry]) (ur_error results).

(** [results["success"] = False; results["error"] = text] *)
Definition mark_failed (results : upload_result) (text : string) :=
  mkResults false (ur_notebook results)
            (ur_uploaded results) (ur_failed results) (Some text).

Section Script.

Variable B : browser.

(** Python's [str.lower]. *)
Variable lower : string -> string.

(** Python's [str] on a value that is not a str. *)
Variable repr : json -> string.

(** [f"{x}"] *)
Definition py_str (x : json) : string :=
  match x with
  | JStr s => s
  | _ => repr x
  end.

(** One call of the capability, recorded with its answer. *)
Definition invoke (c : call) : M (ret c) :=
  fun w => let r := B (trace w) c in
           (match r with inl e => Raised e | inr a => Ok a end, log (Ev c r) w).

(** [context.storage_state(path=...)]: on success the file is rewritten. *)
Definition storage_state (path : string) : M unit :=
  fun w => let r := B (trace w) (StorageState path) in
           match r with
           | inl e => (Raised e, log (Ev (StorageState path) r) w)
           | inr j => (Ok tt, (if String.eqb path STATE_PATH
                               then write_state j else fun w' => w')
                                (log (Ev (StorageState path) r) w))
           end.

(** [x = page.query_selector(first)]
    [if not x: x = page.query_selector(second)] *)
Definition query_either (first second : string) : M (option handle) :=
  found <- invoke (QuerySelector None first) ;;
  match found with
  | Some el => pure (Some el)
  | None => invoke (QuerySelector None second)
  end.

(** [with sync_playwright() as p: body] *)
Definition with_playwright {A} (body : M A) : M A :=
  invoke PlaywrightStart ;; finally body (invoke PlaywrightStop ;; pure tt).

(** Lines 40-41. *)
Definition card_title (card : handle) : M string :=
  title_el <- invoke (QuerySelector (Some card) NOTEBOOK_TITLE) ;;
  match title_el with
  | Some el => invoke (InnerText el)
  | None => pure "Untitled"
  end.

(** Lines 39-45: the loop appends to [notebooks] in place. *)
Fixpoint collect_cards (cards : list handle) (notebooks : list notebook)
  : block (list notebook) :=
  match cards with
  | [] => leave notebooks Fell
  | card :: rest =>
      step (card_title card) notebooks (fun title =>
      collect_cards rest (notebooks ++ [mkNotebook title card]))
  end.

Definition get_notebooks : M (list notebook) :=
  fun w =>
    let notebooks := [] in
    match
      step (invoke (WaitForSelector NOTEBOOK_CARD 10000%N)) notebooks (fun _ =>
      step (invoke (QuerySelectorAll NOTEBOOK_CARD)) notebooks (fun cards =>
      collect_cards cards notebooks)) w
    with
    | ((notebooks, Threw e), w1) =>
        if is_timeout e then (Ok notebooks, w1) else (Raised e, w1)
    | ((notebooks, _), w1) => (Ok notebooks, w1)
    end.

Definition create_notebook (name : string) : M bool :=
  try_except
    (create_btn <- query_either CREATE_NEW CREATE_BUTTON ;;
     match create_btn with
     | Some btn =>
         invoke (Click btn) ;;
         sleep 2000%N ;;
         name_input <- invoke (QuerySelector None NAME_INPUT) ;;
         match name_input with
         | Some input =>
             invoke (Fill input (JStr name)) ;;
             invoke (Press input "Enter") ;;
             sleep 1000%N
         | None => pure tt
         end ;;
         pure true
     | None => pure false
     end)
    (fun e =>
       print_stderr ("Error creating notebook: " ^ exn_text e) ;;
       pure false).

Definition add_website_source (url : json) : M add_result :=
  try_except
    (add_btn <- query_either ADD_SOURCE ADD_SOURCE_BUTTON ;;
     match add_btn with
     | None => pure (failure "Could not find Add Source button")
     | Some add_btn =>
         invoke (Click add_btn) ;;
         sleep 1000%N ;;
         website_option <- query_either WEBSITE SOURCE_TYPE_WEBSITE ;;
         match website_option with
         | None => pure (failure "Could not find Website option")
         | Some website_option =>
             invoke (Click website_option) ;;
             sleep 500%N ;;
             url_input <- query_either URL_INPUT WEBSITE_URL_INPUT ;;
             match url_input with
             | None => pure (failure "Could not find URL input")
             | Some url_input =>
                 invoke (Fill url_input url) ;;
                 invoke (Press url_input "Enter") ;;
                 sleep 3000%N ;;
                 pure (added_url url)
             end
         end
     end)
    (fun e => pure (failure (exn_text e))).

Definition add_file_source (file_path : json) : M add_result :=
  try_except
    (present <- os_path_exists file_path ;;
     if negb present then pure (failure ("File not found: " ^ py_str file_path))
     else
       add_btn <- query_either ADD_SOURCE ADD_SOURCE_BUTTON ;;
       match add_btn with
       | None => pure (failure "Could not find Add Source button")
       | Some add_btn =>
           invoke (Click add_btn) ;;
           sleep 1000%N ;;
           file_option <- query_either UPLOAD SOURCE_TYPE_UPLOAD ;;
           match file_option with
           | Some file_option => invoke (Click file_option) ;; sleep 500%N
           | None => pure tt
           end ;;
           file_input <- invoke (QuerySelector None FILE_INPUT) ;;
           match file_input with
           | Some file_input =>
               invoke (SetInputFiles file_input file_path) ;;
               sleep 5000%N ;;
               pure (added_file file_path)
           | None => pure (failure "Could not find file input")
           end
       end)
    (fun e => pure (failure (exn_text e))).

(** Lines 197-200: the first notebook whose lowered title is the lowered
    name. *)
Fixpoint find_notebook (notebooks : list notebook) (notebook_name : string)
  : option notebook :=
  match notebooks with
  | [] => None
  | nb :: rest =>
      if String.eqb (lower (title nb)) (lower notebook_name) then Some nb
      else find_notebook rest notebook_name
  end.

(** Lines 215-216: [source.get] raises on anything but a dict. *)
Definition source_type (s : source) : exn + json := py_get s "type" (JStr "website").
Definition source_value (s : source) : exn + json := py_get s "value" (JStr "").

(** Lines 215-223: the value of a request and the result of adding it. *)
Definition dispatch (s : source) : M (json * add_result) :=
  source_type <- lift (source_type s) ;;
  value <- lift (source_value s) ;;
  result <-
    (if is_str "website" source_type then add_website_source value
     else if is_str "file" source_type then add_file_source value
     else pure (failure ("Unknown source type: " ^ py_str source_type))) ;;
  pure (value, result).

(** Lines 225-231. *)
Definition record_outcome (results : upload_result) (value : json)
  (result : add_result) : upload_result :=
  if ar_success result then uploaded_append results value
  else failed_append results
         (mkFailed value (match ar_error result with
                          | Some e => e
                          | None => "Unknown error"
                          end)).

(** Lines 225-231 over a whole batch: each value with its result. *)
Definition record_all (results : upload_result)
  (done : list (json * add_result)) : upload_result :=
  fold_left (fun acc vr => record_outcome acc (fst vr) (snd vr)) done results.


(** Lines 215-234: the body of the loop, request after request. An
    exception of [source.get] leaves the loop, and the block. *)
Fixpoint add_sources (sources : list source) (results : upload_result)
  : block upload_result :=
  match sources with
  | [] => leave results Fell
  | s :: rest =>
      step (dispatch s) results (fun done =>
      let results := record_outcome results (fst done) (snd done) in
      step (sleep 1000%N) results (fun _ =>
      add_sources rest results))
  end.

(** Line 214: [for source in sources], whatever [sources] is. *)
Definition for_sources (sources : json) (results : upload_result)
  : block upload_result :=
  match py_iter sources with
  | inl e => leave results (Threw e)
  | inr items => add_sources items results
  end.

(** Lines 202-211: open the notebook found, or create one. *)
Definition open_or_create (target_notebook : option notebook)
  (notebook_name : string) (sources : json) (results : upload_result)
  : block upload_result :=
  match target_notebook with
  | Some nb =>
      step (invoke (Click (element nb))) results (fun _ =>
      step (sleep 2000%N) results (fun _ =>
      for_sources sources results))
  | None =>
      step (create_notebook notebook_name) results (fun created =>
      if negb created
      then leave (mark_failed results "Could not create notebook") Returned
      else for_sources sources results)
  end.

(** Lines 188-234: the body of the [try]. *)
Definition upload_try (notebook_name : string) (sources : json)
  (results : upload_result) : block upload_result :=
  step (invoke (Goto NOTEBOOKLM_URL)) results (fun _ =>
  step (invoke (WaitForLoadState "networkidle")) results (fun _ =>
  step (sleep 2000%N) results (fun _ =>
  step get_notebooks results (fun notebooks =>
  open_or_create (find_notebook notebooks notebook_name)
                 notebook_name sources results)))).

Definition NOT_AUTHENTICATED : string := "Not authenticated. Run authentication first.".

Definition upload_sources (notebook_name : string) (sources : json)
  (headless : bool) : M (reply upload_result) :=
  fun w =>
    if negb (file_exists (state_file w)) then (Ok (ErrorReply NOT_AUTHENTICATED), w)
    else
      let results := mkResults true notebook_name [] [] None in
      with_playwright
        (invoke (Launch headless) ;;
         invoke (NewContext STATE_PATH) ;;
         invoke NewPage ;;
         fun w1 =>
           match upload_try notebook_name sources results w1 with
           | ((results, x), w2) =>
               let results :=
                 match x with
                 | Threw e => mark_failed results (exn_text e)
                 | _ => results
                 end in
               finally (pure (Reply results))
                       (storage_state STATE_PATH ;; invoke Close ;; pure tt) w2
           end) w.

Definition list_notebooks (headless : bool) : M (reply list_result) :=
  fun w =>
    if negb (file_exists (state_file w)) then (Ok (ErrorReply NOT_AUTHENTICATED), w)
    else
      with_playwright
        (invoke (Launch headless) ;;
         invoke (NewContext STATE_PATH) ;;
         invoke NewPage ;;
         finally
           (try_except
              (invoke (Goto NOTEBOOKLM_URL) ;;
               invoke (WaitForLoadState "networkidle") ;;
               sleep 3000%N ;;
               notebooks <- get_notebooks ;;
               let titles := map title notebooks in
               pure (Reply (mkListing true titles (length titles))))
              (fun e => pure (ErrorReply (exn_text e))))
           (invoke Close ;; pure tt)) w.

(** The value and the result of each request of a batch, in order, as
    the loop of [upload_sources] obtains them; the list stops where the
    loop does. *)
Fixpoint outcomes (sources : list source) (w : world) : list (json * add_result) :=
  match sources with
  | [] => []
  | s :: rest =>
      match dispatch s w with
      | (Ok done, w1) => done :: outcomes rest (log (Slept 1000) w1)
      | (Raised _, _) => []
      end
  end.

End Script.

(** *** Observations on histories *)

(** A lookup of one of the two notebook-creation controls: the first
    thing [create_notebook] does. *)
Definition creation_query (e : event) : bool :=
  match e with
  | Ev (QuerySelector None selector) _ =>
      String.eqb selector CREATE_NEW || String.eqb selector CREATE_BUTTON
  | _ => false
  end.

(** A call of [context.storage_state]. *)
Definition storage_call (e : event) : bool :=
  match e with
  | Ev (StorageState _) _ => true
  | _ => false
  end.

(** [page.query_selector(selector)] answered [None]. *)
Definition not_found (selector : string) (e : event) : bool :=
  match e with
  | Ev c r =>
      match c return exn + ret c -> bool with
      | QuerySelector None s =>
          fun r => match r with
                   | inr None => String.eqb s selector
                   | _ => false
                   end
      | _ => fun _ => false
      end r
  | _ => false
  end.

(** A control that neither of its two selectors located. *)
Definition missing (first second : string) (history : list event) : bool :=
  existsb (not_found first) history && existsb (not_found second) history.


(** A call that raised. *)
Definition raising (e : event) : bool :=
  match e with
  | Ev _ (inl _) => true
  | _ => false
  end.

(** The title of an entry of [get_notebooks] as the history shows it:
    either the card's title element was looked up and not found and the
    title is "Untitled", or it was found and [inner_text] gave the title. *)
Definition titled (history : list event) (nb : notebook) : Prop :=
  (In (Ev (QuerySelector (Some (element nb)) NOTEBOOK_TITLE) (inr None)) history /\
   title nb = "Untitled") \/
  (exists el,
     In (Ev (QuerySelector (Some (element nb)) NOTEBOOK_TITLE) (inr (Some el))) history /\
     In (Ev (InnerText el) (inr (title nb))) history).

(** A computation that changes the world only by adding events to the
    history, all of them satisfying [P]; the files stay as they are. *)
Definition emits {R} (P : event -> Prop) (f : world -> R * world) : Prop :=
  forall w, exists ext, snd (f w) = logs ext w /\ Forall P ext.

(** The first thing a computation does is the call [c]. *)
Definition starts_with {R} (B : browser) (c : call) (f : world -> R * world) : Prop :=
  forall w, exists rest,
    trace (snd (f w)) = trace w ++ Ev c (B (trace w) c) :: rest.

(** [page.query_selector(selector)] answered an element. *)
Definition located (selector : string) (e : event) : bool :=
  match e with
  | Ev c r =>
      match c return exn + ret c -> bool with
      | QuerySelector None s =>
          fun r => match r with
                   | inr (Some _) => String.eqb s selector
                   | _ => false
                   end
      | _ => fun _ => false
      end r
  | _ => false
  end.

(** A control that one of its two selectors located. *)
Definition found (first second : string) (history : list event) : bool :=
  existsb (located first) history || existsb (located second) history.

(** [context.new_page()] returned: the guarded block is entered next. *)
Definition page_opened (e : event) : bool :=
  match e with
  | Ev NewPage (inr _) => true
  | _ => false
  end.

(** The lookup of the title element of a card. *)
Definition title_lookup (e : event) : bool :=
  match e with
  | Ev (QuerySelector (Some _) selector) _ => String.eqb selector NOTEBOOK_TITLE
  | _ => false
  end.

(** A request on which [source.get] works. *)
Definition is_dict (x : json) : bool :=
  match x with
  | JObj _ => true
  | _ => false
  end.

(** The calls that open and close the session, as against those that
    drive the page. *)
Definition session_call (e : event) : bool :=
  match e with
  | Ev PlaywrightStart _ | Ev PlaywrightStop _ | Ev (Launch _) _
  | Ev (NewContext _) _ | Ev NewPage _ | Ev (StorageState _) _ | Ev Close _ => true
  | _ => false
  end.

(** A call that opens or closes the session raised. *)
Definition session_failure (e : event) : bool := session_call e && raising e.

(** [browser.close()] was called. *)
Definition close_call (e : event) : bool :=
  match e with
  | Ev Close _ => true
  | _ => false
  end.

(** [context.storage_state] returned. *)
Definition saved (e : event) : bool :=
  match e with
  | Ev c r =>
      match c return exn + ret c -> bool with
      | StorageState _ => fun r => match r with inr _ => true | inl _ => false end
      | _ => fun _ => false
      end r
  | _ => false
  end.

(** A call that acts on the page: a click, a keystroke, an upload. *)
Definition acts_on_page (e : event) : bool :=
  match e with
  | Ev (Click _) _ | Ev (Fill _ _) _ | Ev (Press _ _) _ | Ev (SetInputFiles _ _) _ => true
  | _ => false
  end.

(** A call that only looks at the page. *)
Definition looks (e : event) : bool :=
  match e with
  | Ev (WaitForSelector _ _) _ | Ev (QuerySelectorAll _) _
  | Ev (QuerySelector _ _) _ | Ev (InnerText _) _ => true
  | _ => false
  end.


(** [time.sleep] in total, in milliseconds. *)
Definition slept_ms (history : list event) : N :=
  fold_right (fun e total => match e with
                             | Slept ms => (ms + total)%N
                             | _ => total
                             end) 0%N history.

(** *** Pages for the examples

    A browser over a fixed page: [p_raise] picks the calls that raise,
    every other call succeeds with what the page holds. *)
Record page := mkPage {
  p_raise : list event -> call -> option exn;
  p_find : option handle -> string -> option handle;
  p_cards : list handle;
  p_text : handle -> string;
  p_state : json
}.

Definition page_browser (p : page) : browser :=
  fun history c =>
    match p_raise p history c with
    | Some e => inl e
    | None =>
        match c return exn + ret c with
        | QuerySelectorAll _ => inr (p_cards p)
        | QuerySelector scope selector => inr (p_find p scope selector)
        | InnerText el => inr (p_text p el)
        | StorageState _ => inr (p_state p)
        | _ => inr tt
        end
    end.

(** [os.path.exists] on a value that is not a str, no file descriptor
    being open. *)
Definition no_descriptor (x : json) : exn + bool :=
  match x with
  | JInt _ | JBool _ => inr false
  | _ =>
      inl (TypeError ("stat: path should be string, bytes, os.PathLike or integer, not "
                      ^ type_name x))
  end.

(** A world for the examples: nothing has happened yet, the state file
    holds [Auth.sample_state], and [notes.pdf] is the only local file. *)
Definition fresh (f : file_state) : world :=
  mkWorld [] f (fun path => String.eqb path "notes.pdf") no_descriptor.

Definition signed_in : world := fresh (Present (inr Auth.sample_state)).

(** A page from its controls and its notebook cards, each card with its
    title element and text when it has one; the session the browser holds
    is [Auth.refreshed_state]. *)
Definition card_title_of (cards : list (handle * option (handle * string)))
  (card : handle) : option (handle * string) :=
  match find (fun entry => Nat.eqb (fst entry) card) cards with
  | Some (_, t) => t
  | None => None
  end.

Definition text_of (cards : list (handle * option (handle * string)))
  (el : handle) : string :=
  match find (fun entry => match snd entry with
                           | Some (el', _) => Nat.eqb el' el
                           | None => false
                           end) cards with
  | Some (_, Some (_, text)) => text
  | _ => ""
  end.

Definition make_page (raises : list event -> call -> option exn)
  (controls : list (string * handle))
  (cards : list (handle * option (handle * string))) : page :=
  mkPage raises
    (fun scope selector =>
       match scope with
       | None => lookup selector controls
       | Some card =>
           if String.eqb selector NOTEBOOK_TITLE
           then option_map fst (card_title_of cards card)
           else None
       end)
    (map fst cards)
    (text_of cards)
    Auth.refreshed_state.

Definition never : list event -> call -> option exn := fun _ _ => None.

(** A page with no notebook and none of the controls. *)
Definition blank_page : page := make_page never [] [].

(** The page in working order: every control is there under its first
    selector; three notebooks, the last without a title element. *)
Definition all_controls : list (string * handle) :=
  [(CREATE_NEW, 20); (NAME_INPUT, 21); (ADD_SOURCE, 22); (WEBSITE, 23);
   (URL_INPUT, 24); (UPLOAD, 25); (FILE_INPUT, 26)].

Definition three_cards : list (handle * option (handle * string)) :=
  [(1, Some (11, "Plans")); (2, Some (12, "My Notes")); (3, None)].

Definition studio : page := make_page never all_controls three_cards.



(** A page with the control that creates a notebook and nothing else. *)
Definition create_only : page := make_page never [(CREATE_NEW, 20)] [].

(** Batches of requests. *)
Definition website_request (url : string) : source :=
  JObj [("type", JStr "website"); ("value", JStr url)].
Definition file_request (path : string) : source :=
  JObj [("type", JStr "file"); ("value", JStr path)].

Definition three_requests : list source :=
  [website_request "https://example.org"; file_request "gone.pdf";
   file_request "notes.pdf"].

Definition two_requests : list source :=
  [website_request "https://example.org"; file_request "gone.pdf"].

(** A batch whose second element is not a dict. *)
Definition broken_requests : list source :=
  [website_request "https://example.org"; JStr "oops"; file_request "notes.pdf"].

(** [str] on [None] and on the booleans. *)
Definition scalar_repr (x : json) : string :=
  match x with
  | JNull => "None"
  | JBool true => "True"
  | JBool false => "False"
  | _ => ""
  end.



(** The page in working order, except that reading the text of the second
    card's title times out. *)
Definition stalling_page : page :=
  make_page
    (fun _ c => match c with
                | InnerText 12 => Some (mkExn PlaywrightTimeout "Timeout 30000ms exceeded.")
                | _ => None
                end)
    all_controls three_cards.


(** The page in working order in a browser that cannot be closed any
    more. *)
Definition crashed_page : page :=
  make_page
    (fun _ c => match c with
                | Close =>
                    Some (mkExn OtherException
                            "Target page, context or browser has been closed")
                | _ => None
                end)
    all_controls three_cards.

(** Three notebooks, two of which differ by case only. *)
Definition shelf : list notebook :=
  [mkNotebook "Plans" 1; mkNotebook "My Notes" 2; mkNotebook "MY NOTES" 3].

(** [str.lower] on ASCII text. *)
Definition lower_ascii (c : ascii) : ascii :=
  let n := nat_of_ascii c in
  if (65 <=? n)%nat && (n <=? 90)%nat then ascii_of_nat (n + 32) else c.

Fixpoint ascii_lower (s : string) : string :=
  match s with
  | EmptyString => EmptyString
  | String c rest => String (lower_ascii c) (ascii_lower rest)
  end.

End Upload.

(** ** notebooklm_auth.py: the interactive login and the entry point *)

Module Interactive.

(** The calls of [authenticate_interactive]: Playwright calls as in the
    upload script, [browser.new_context()] without a stored state, and
    [input()]. *)
Inductive login_call :=
| Playwright (c : Upload.call)
| NewContextEmpty
| Input.

Definition login_ret (c : login_call) : Set :=
  match c with
  | Playwright c => Upload.ret c
  | NewContextEmpty => unit
  | Input => string
  end.

(** The dicts of the script, which [main] prints as JSON: an error, the
    answer of [check_auth_status], the answer of
    [authenticate_interactive]. *)
Inductive doc :=
| ErrorDoc (error : string)
| CheckDoc (result : Auth.auth_result)
| SavedDoc (success : bool) (message : string) (state_path : string).

(** The history of a run: every call with its answer, every line printed
    to [sys.stdout] and every JSON document printed there. *)
Inductive login_event :=
| Asked (c : login_call) (r : exn + login_ret c)
| Stdout (line : string)
| StdoutJson (d : doc).

(** The browser and the person at the terminal: they answer a call from
    the history so far, by a value or by raising. *)
Definition desk := list login_event -> forall c : login_call, exn + login_ret c.

Record login_world := mkLogin {
  login_trace : list login_event;
  login_file : file_state
}.

Definition login_logs (events : list login_event) (w : login_world) : login_world :=
  mkLogin (login_trace w ++ events) (login_file w).

Definition login_write (j : json) (w : login_world) : login_world :=
  mkLogin (login_trace w) (Present (inr j)).

Definition L (A : Type) := login_world -> Upload.res A * login_world.

Definition login_pure {A} (a : A) : L A := fun w => (Upload.Ok a, w).

Definition login_bind {A C} (m : L A) (k : A -> L C) : L C :=
  fun w => match m w with
           | (Upload.Ok a, w1) => k a w1
           | (Upload.Raised e, w1) => (Upload.Raised e, w1)
           end.

Notation "x <- m ;; k" := (login_bind m (fun x => k))
  (at level 61, m at next level, right associativity).
Notation "m ;; k" := (login_bind m (fun _ => k))
  (at level 61, right associativity).

(** [try: body / finally: cleanup], as in the upload script. *)
Definition login_finally {A} (body : L A) (cleanup : L unit) : L A :=
  fun w => match body w with
           | (r, w1) => match cleanup w1 with
                        | (Upload.Ok _, w2) => (r, w2)
                        | (Upload.Raised e, w2) => (Upload.Raised e, w2)
                        end
           end.

Definition print (line : string) : L unit :=
  fun w => (Upload.Ok tt, login_logs [Stdout line] w).

(** [print(json.dumps(d))] *)
Definition print_json (d : doc) : L unit :=
  fun w => (Upload.Ok tt, login_logs [StdoutJson d] w).

(** [get_state_path()]: [state.json] beside the script, the file the
    upload script reads. *)
Definition get_state_path : string := Upload.STATE_PATH.

(** ["=" * 60] *)
Fixpoint times (n : nat) (s : string) : string :=
  match n with
  | O => EmptyString
  | S n => s ^ times n s
  end.

Definition RULE : string := times 60 "=".

Section Script.

Variable D : desk.

Definition login_invoke (c : login_call) : L (login_ret c) :=
  fun w => let r := D (login_trace w) c in
           (match r with inl e => Upload.Raised e | inr a => Upload.Ok a end,
            login_logs [Asked c r] w).

(** [context.storage_state(path=str(state_path))]: on success the file is
    rewritten. *)
Definition login_storage_state (path : string) : L unit :=
  fun w => let r := D (login_trace w) (Playwright (Upload.StorageState path)) in
           match r with
           | inl e =>
               (Upload.Raised e,
                login_logs [Asked (Playwright (Upload.StorageState path)) r] w)
           | inr j =>
               (Upload.Ok tt,
                (if String.eqb path get_state_path
                 then login_write j else fun w' => w')
                  (login_logs [Asked (Playwright (Upload.StorageState path)) r] w))
           end.

(** [with sync_playwright() as p: body] *)
Definition login_with_playwright {A} (body : L A) : L A :=
  login_invoke (Playwright Upload.PlaywrightStart) ;;
  login_finally body
    (login_invoke (Playwright Upload.PlaywrightStop) ;; login_pure tt).

(** Lines 63-95. *)
Definition authenticate_interactive : L doc :=
  let state_path := get_state_path in
  login_with_playwright
    (login_invoke (Playwright (Upload.Launch false)) ;;
     login_invoke NewContextEmpty ;;
     login_invoke (Playwright Upload.NewPage) ;;
     login_invoke (Playwright (Upload.Goto "https://notebooklm.google.com/")) ;;
     print RULE ;;
     print "MANUAL LOGIN REQUIRED" ;;
     print RULE ;;
     print "1. Log in to your Google account in the browser window" ;;
     print "2. Make sure you can see the NotebookLM interface" ;;
     print "3. Press ENTER here when done..." ;;
     print RULE ;;
     login_invoke Input ;;
     login_storage_state state_path ;;
     login_invoke (Playwright Upload.Close) ;;
     login_pure tt) ;;
  login_pure (SavedDoc true ("Authentication state saved to " ^ state_path) state_path).

(** How the process ends: [main] returns, or [sys.exit(code)]. *)
Inductive status := Finished | Exited (code : nat).

(** Lines 27-60 in a world: the check reads the state file. *)
Definition check : L doc :=
  fun w => (Upload.Ok (CheckDoc (Auth.check_auth_status (login_file w))), w).

(** Lines 98-112; [argv] is [sys.argv]. *)
Definition main (argv : list string) : L status :=
  match argv with
  | _ :: action :: _ =>
      result <-
        (if String.eqb action "check" then check
         else if String.eqb action "authenticate" then authenticate_interactive
         else login_pure (ErrorDoc ("Unknown action: " ^ action))) ;;
      print_json result ;;
      login_pure Finished
  | _ =>
      print_json (ErrorDoc "Usage: notebooklm_auth.py <check|authenticate>") ;;
      login_pure (Exited 1)
  end.

End Script.

(** *** Observations on histories *)

Definition login_raising (e : login_event) : bool :=
  match e with
  | Asked _ (inl _) => true
  | _ => false
  end.

(** [browser.close()] was called. *)
Definition login_close_call (e : login_event) : bool :=
  match e with
  | Asked (Playwright Upload.Close) _ => true
  | _ => false
  end.

(** [context.storage_state] returned. *)
Definition login_saved (e : login_event) : bool :=
  match e with
  | Asked c r =>
      match c return exn + login_ret c -> bool with
      | Playwright (Upload.StorageState _) =>
          fun r => match r with inr _ => true | inl _ => false end
      | _ => fun _ => false
      end r
  | _ => false
  end.

(** A JSON document on the standard output. *)
Definition json_line (e : login_event) : bool :=
  match e with
  | StdoutJson _ => true
  | _ => false
  end.

(** Anything the browser or the terminal was asked. *)
Definition is_call (e : login_event) : bool :=
  match e with
  | Asked _ _ => true
  | _ => false
  end.

(** Plain text on the standard output. *)
Definition text_line (e : login_event) : bool :=
  match e with
  | Stdout _ => true
  | _ => false
  end.

(** The history of a login that goes through: [line] is what the person
    typed, [j] the state the browser saved. *)
Definition login_script (line : string) (j : json) : list login_event :=
  [Asked (Playwright Upload.PlaywrightStart) (inr tt);
   Asked (Playwright (Upload.Launch false)) (inr tt);
   Asked NewContextEmpty (inr tt);
   Asked (Playwright Upload.NewPage) (inr tt);
   Asked (Playwright (Upload.Goto "https://notebooklm.google.com/")) (inr tt);
   Stdout RULE;
   Stdout "MANUAL LOGIN REQUIRED";
   Stdout RULE;
   Stdout "1. Log in to your Google account in the browser window";
   Stdout "2. Make sure you can see the NotebookLM interface";
   Stdout "3. Press ENTER here when done...";
   Stdout RULE;
   Asked Input (inr line);
   Asked (Playwright (Upload.StorageState get_state_path)) (inr j);
   Asked (Playwright Upload.Close) (inr tt);
   Asked (Playwright Upload.PlaywrightStop) (inr tt)].

(** A person who logs in and presses ENTER, in a browser that saves
    [state]; [raises] picks the calls that raise. *)
Definition person (raises : login_call -> option exn) (state : json) : desk :=
  fun _ c =>
    match raises c with
    | Some e => inl e
    | None =>
        match c return exn + login_ret c with
        | Playwright c =>
            match c return exn + Upload.ret c with
            | Upload.QuerySelectorAll _ => inr []
            | Upload.QuerySelector _ _ => inr None
            | Upload.InnerText _ => inr ""%string
            | Upload.StorageState _ => inr state
            | _ => inr tt
            end
        | NewContextEmpty => inr tt
        | Input => inr ""%string
        end
    end.

(** A session without any cookie, and the world before the first login. *)
Definition empty_session : json := JObj [("cookies", JArr []); ("origins", JArr [])].

Definition first_time : login_world := mkLogin [] Absent.

Definition nothing_raises : login_call -> option exn := fun _ => None.

(** [input()] at a closed standard input. *)
Definition no_terminal : login_call -> option exn :=
  fun c => match c with
           | Input => Some (mkExn OtherException "EOF when reading a line")
           | _ => None
           end.

End Interactive.

(** * Properties *)

Module PyFacts.



Lemma prefix_app (a b : string) :
  String.prefix a b = true <-> exists post, b = a ^ post.
Proof.
  revert b; induction a as [|c a IH]; intros b; simpl.
  - split; [intros _; now exists b | intros _; now destruct b].
  - destruct b as [|c' b]; simpl.
    + split; [discriminate | intros [post H]; discriminate].
    + destruct (ascii_dec c c') as [->|Hne].
      * rewrite IH. split; intros [post H]; exists post.
        -- now rewrite H.
        -- now inversion H.
      * split; [discriminate | intros [post H]; inversion H; congruence].
Qed.

Lemma contains_nil (needle : string) :
  contains needle "" = String.prefix needle "" || false.
Proof. reflexivity. Qed.

Lemma contains_cons (needle : string) (c : ascii) (hay : string) :
  contains needle (String c hay) =
  String.prefix needle (String c hay) || contains needle hay.
Proof. reflexivity. Qed.

Lemma contains_spec (needle hay : string) :
  contains needle hay = true <-> exists pre post, hay = pre ^ needle ^ post.
Proof.
  induction hay as [|c hay IH].
  - rewrite contains_nil, orb_false_r, prefix_app. split.
    + intros [post H]. exists "", post. exact H.
    + intros [pre [post H]]. destruct pre; simpl in H.
      * now exists post.
      * discriminate.
  - rewrite contains_cons, orb_true_iff, prefix_app, IH. split.
    + intros [[post H] | [pre [post H]]].
      * exists "", post. exact H.
      * exists (String c pre), post. simpl. now rewrite H.
    + intros [pre [post H]]. destruct pre as [|c' pre]; simpl in H.
      * left. now exists post.
      * right. inversion H. now exists pre, post.
Qed.

End PyFacts.

(** ** Session check *)

Module AuthSpec.

Import Auth PyFacts.

Lemma has_markerb_spec (c : json) : has_markerb c = true <-> has_marker c.
Proof.
  unfold has_markerb, has_marker. split.
  - destruct c as [| | | | |items|fields]; try discriminate.
    destruct (lookup "domain" fields) as [[| | | |d| |]|] eqn:L; try discriminate.
    intros H. apply contains_spec in H. destruct H as (pre & post & H).
    now exists fields, d, pre, post.
  - intros (fields & d & pre & post & -> & L & H). rewrite L.
    apply contains_spec. now exists pre, post.
Qed.

(** On well-shaped cookies the comprehension never raises and keeps the
    cookies with the marker, in order. *)
Lemma keep_google_shaped (cookies : list json) :
  Forall cookie_shaped cookies ->
  keep_google cookies = inr (filter has_markerb cookies).
Proof.
  induction 1 as [|c cs (fields & -> & Hd) _ IH]; [reflexivity|].
  cbn [keep_google filter]. rewrite IH. unfold py_get, dict_get, has_markerb.
  destruct Hd as [-> | (d & ->)]; cbn.
  - reflexivity.
  - now destruct (contains "google" d).
Qed.

Lemma google_cookies_shaped (state : json) (cookies : list json) :
  session_shaped state cookies ->
  google_cookies state = inr (filter has_markerb cookies).
Proof.
  intros (fields & -> & Hc & Hs). unfold google_cookies. cbn.
  rewrite Hc. cbn. now apply keep_google_shaped.
Qed.

Lemma keep_google_step (c : json) (rest : list json) :
  keep_google (c :: rest) =
  match cookie_hit c with
  | inl e => inl e
  | inr hit =>
      match keep_google rest with
      | inl e => inl e
      | inr kept => inr (if hit then c :: kept else kept)
      end
  end.
Proof.
  cbn [keep_google]. unfold cookie_hit, bindE.
  destruct (py_get c "domain" (JStr "")) as [e|d]; [reflexivity|].
  destruct (py_in "google" d) as [e|hit]; reflexivity.
Qed.

(** When the condition can be evaluated on every cookie, the
    comprehension keeps the cookies on which it is true, in order. *)
Lemma keep_google_evaluated (cookies : list json) :
  Forall (fun c => exists hit, cookie_hit c = inr hit) cookies ->
  keep_google cookies = inr (filter hits cookies).
Proof.
  induction 1 as [|c cs (hit & Hc) _ IH]; [reflexivity|].
  rewrite keep_google_step, Hc, IH. cbn [filter]. unfold hits. rewrite Hc.
  now destruct hit.
Qed.

(** The first cookie on which the condition raises ends the
    comprehension with its exception. *)
Lemma keep_google_raises (before after : list json) (c : json) (e : exn) :
  Forall (fun c => exists hit, cookie_hit c = inr hit) before ->
  cookie_hit c = inl e ->
  keep_google (before ++ c :: after) = inl e.
Proof.
  induction 1 as [|b bs (hit & Hb) _ IH]; intros Hc.
  - cbn [app]. now rewrite keep_google_step, Hc.
  - cbn [app]. now rewrite keep_google_step, Hb, IH.
Qed.

Lemma keep_google_returns (cookies kept : list json) :
  keep_google cookies = inr kept ->
  Forall (fun c => exists hit, cookie_hit c = inr hit) cookies.
Proof.
  revert kept. induction cookies as [|c cs IH]; intros kept H; [constructor|].
  rewrite keep_google_step in H.
  destruct (cookie_hit c) as [e|hit] eqn:Hc; [discriminate|].
  destruct (keep_google cs) as [e|kept'] eqn:K; [discriminate|].
  constructor; [exists hit; exact Hc | exact (IH kept' eq_refl)].
Qed.

Lemma filter_nil_existsb {X} (f : X -> bool) (l : list X) :
  filter f l = [] <-> existsb f l = false.
Proof.
  induction l as [|x l IH]; [now split|]. cbn. destruct (f x); cbn.
  - split; discriminate.
  - exact IH.
Qed.

(** The check from the cookies it goes through. *)
Lemma check_by_items (state : json) (items : list json) :
  state_cookies state = inr items ->
  check_auth_status (Present (inr state)) =
  match keep_google items with
  | inr [] => mkAuth false "No Google cookies found in state. Re-authenticate." None
  | inr (c :: cs) => mkAuth true "Authentication state found." (Some (length (c :: cs)))
  | inl e => mkAuth false ("Error reading state: " ^ exn_text e) None
  end.
Proof.
  unfold state_cookies, check_auth_status, google_cookies, bindE.
  destruct (py_get state "cookies" (JArr [])) as [e|cookies]; [discriminate|].
  intros H. now rewrite H.
Qed.

Lemma check_by_items_raise (state : json) (e : exn) :
  state_cookies state = inl e ->
  check_auth_status (Present (inr state)) =
  mkAuth false ("Error reading state: " ^ exn_text e) None.
Proof.
  unfold state_cookies, check_auth_status, google_cookies, bindE.
  destruct (py_get state "cookies" (JArr [])) as [e'|cookies].
  - now intros [= ->].
  - intros H. now rewrite H.
Qed.

Lemma state_cookies_shaped (state : json) (cookies : list json) :
  session_shaped state cookies -> state_cookies state = inr cookies.
Proof.
  intros (fields & -> & Hc & _). unfold state_cookies. cbn. now rewrite Hc.
Qed.

Lemma shaped_hits (c : json) : cookie_shaped c -> hits c = has_markerb c.
Proof.
  intros (fields & -> & [H | (d & H)]); unfold hits, cookie_hit, has_markerb;
    cbn; unfold dict_get; rewrite H; reflexivity.
Qed.

Lemma shaped_evaluates (cookies : list json) :
  Forall cookie_shaped cookies ->
  Forall (fun c => exists hit, cookie_hit c = inr hit) cookies.
Proof.
  apply Forall_impl. intros c (fields & -> & [H | (d & H)]);
    unfold cookie_hit; cbn; unfold dict_get; rewrite H; eexists; reflexivity.
Qed.

(** C1, as the code has it. [check_auth_status] is total: whatever the
    state file holds it returns a dict with a non-empty message, with
    [cookie_count] only in the authenticated answer, and never lets an
    exception out. It answers [authenticated = False] when the file is
    absent, when it cannot be opened or decoded, when reading the
    cookies of the decoded value raises, and when the test
    ['google' in c.get('domain', '')] is true on no cookie. Reading the
    cookies raises when the value has no [get], when its [cookies] cannot
    be iterated, and when the test raises on some cookie: the check then
    fails with the text of the first such exception, whatever the other
    cookies are. In every remaining case the test can be evaluated on
    every cookie and is true on at least one: the answer is
    [authenticated = True] with [cookie_count] the number of cookies on
    which the test is true. On a session state (an object whose cookies
    are objects with string domains) the test never raises and is true
    exactly on the cookies whose domain has "google" as a substring. *)
Theorem check_auth_status_cases (f : file_state) :
  let r := check_auth_status f in
  message r <> "" /\
  (authenticated r = false -> cookie_count r = None) /\
  (f = Absent -> authenticated r = false /\ cookie_count r = None) /\
  (forall e, f = Present (inl e) ->
     authenticated r = false /\ cookie_count r = None /\
     message r = "Error reading state: " ^ exn_text e) /\
  (forall state e, f = Present (inr state) -> google_cookies state = inl e ->
     authenticated r = false /\ cookie_count r = None) /\
  (forall state kept, f = Present (inr state) -> google_cookies state = inr kept ->
     (kept = [] -> authenticated r = false /\ cookie_count r = None) /\
     (kept <> [] -> authenticated r = true /\ cookie_count r = Some (length kept))) /\
  (forall state e, f = Present (inr state) -> state_cookies state = inl e ->
     authenticated r = false /\
     message r = "Error reading state: " ^ exn_text e) /\
  (forall state items, f = Present (inr state) -> state_cookies state = inr items ->
     (authenticated r = true <->
        Forall (fun c => exists hit, cookie_hit c = inr hit) items /\
        existsb hits items = true) /\
     (authenticated r = true ->
        cookie_count r = Some (length (filter hits items))) /\
     (Forall (fun c => exists hit, cookie_hit c = inr hit) items ->
      existsb hits items = false ->
        message r = "No Google cookies found in state. Re-authenticate.") /\
     (forall before c after e,
        items = before ++ c :: after ->
        Forall (fun c => exists hit, cookie_hit c = inr hit) before ->
        cookie_hit c = inl e ->
        authenticated r = false /\
        message r = "Error reading state: " ^ exn_text e)) /\
  (forall state cookies, f = Present (inr state) -> session_shaped state cookies ->
     state_cookies state = inr cookies /\
     Forall (fun c => exists hit, cookie_hit c = inr hit) cookies /\
     (forall c, In c cookies -> hits c = has_markerb c) /\
     let n := length (filter has_markerb cookies) in
     (forall c, In c (filter has_markerb cookies) <-> In c cookies /\ has_marker c) /\
     (n = 0 -> authenticated r = false /\ cookie_count r = None) /\
     (0 < n -> authenticated r = true /\ cookie_count r = Some n)).
Proof.
  cbv zeta.
  split; [|split; [|split; [|split; [|split; [|split; [|split; [|split]]]]]]].
  - destruct f as [|[e|state]]; cbn; try discriminate.
    destruct (google_cookies state) as [e|[|c cs]]; discriminate.
  - destruct f as [|[e|state]]; cbn; try reflexivity.
    destruct (google_cookies state) as [e|[|c cs]]; cbn; try reflexivity.
    discriminate.
  - intros ->. now split.
  - intros e ->. now repeat split.
  - intros state e -> H. cbn. rewrite H. now split.
  - intros state kept -> H. cbn. rewrite H. split.
    + intros ->. now split.
    + intros Hne. destruct kept; [congruence | now split].
  - intros state e -> H. rewrite (check_by_items_raise state e H). now split.
  - intros state items -> H. rewrite (check_by_items state items H).
    split; [|split; [|split]].
    + split.
      * intros A. destruct (keep_google items) as [e|kept] eqn:K; [discriminate|].
        pose proof (keep_google_returns _ _ K) as F. split; [exact F|].
        rewrite (keep_google_evaluated _ F) in K. injection K as <-.
        destruct (existsb hits items) eqn:X; [reflexivity|].
        apply filter_nil_existsb in X. rewrite X in A. discriminate.
      * intros [F X]. rewrite (keep_google_evaluated _ F).
        destruct (filter hits items) as [|c cs] eqn:K; [|reflexivity].
        apply filter_nil_existsb in K. congruence.
    + intros A. destruct (keep_google items) as [e|kept] eqn:K; [discriminate|].
      rewrite (keep_google_evaluated _ (keep_google_returns _ _ K)) in K.
      injection K as <-. destruct (filter hits items); [discriminate | reflexivity].
    + intros F X. rewrite (keep_google_evaluated _ F).
      apply filter_nil_existsb in X. now rewrite X.
    + intros before c after e -> F He.
      rewrite (keep_google_raises _ _ _ _ F He). now split.
  - intros state cookies -> Hs. cbn.
    rewrite (google_cookies_shaped _ _ Hs).
    split; [exact (state_cookies_shaped _ _ Hs)|].
    destruct Hs as (fields & -> & Hc & Hs).
    split; [exact (shaped_evaluates _ Hs)|].
    split; [intros c Hin; rewrite Forall_forall in Hs; exact (shaped_hits _ (Hs c Hin))|].
    split; [|split].
    + intros c. rewrite filter_In, has_markerb_spec. reflexivity.
    + destruct (filter has_markerb cookies); [now split | discriminate].
    + destruct (filter has_markerb cookies); [cbn; lia | now split].
Qed.

(** The theorem at [sample_state]: two of its four cookies carry the
    marker. *)
Lemma check_auth_status_cases_witness :
  authenticated (check_auth_status (Present (inr sample_state))) = true /\
  cookie_count (check_auth_status (Present (inr sample_state))) = Some 2.
Proof.
  destruct (check_auth_status_cases (Present (inr sample_state)))
    as (_ & _ & _ & _ & _ & _ & _ & _ & H).
  destruct (H sample_state sample_cookies) as (_ & _ & _ & _ & _ & Hpos).
  - reflexivity.
  - exists [("cookies", JArr sample_cookies); ("origins", JArr [])].
    split; [reflexivity | split; [reflexivity|]].
    repeat constructor;
      (eexists; split; [reflexivity | (now left) || (right; eexists; reflexivity)]).
  - apply Hpos. cbn. lia.
Defined.

(** C1 as stated fails: [null_domain_state] decodes, and its first cookie
    has a domain that contains the marker, so that the number of such
    cookies is 1; yet the check answers [authenticated = False], because
    the test raises on the second cookie. *)
Lemma marker_cookie_not_counted :
  (exists fields,
     null_domain_state = JObj fields /\
     dict_get fields "cookies" (JArr []) =
       JArr [cookie ".google.com"; JObj [("domain", JNull)]]) /\
  has_marker (cookie ".google.com") /\
  authenticated (check_auth_status (Present (inr null_domain_state))) = false /\
  cookie_count (check_auth_status (Present (inr null_domain_state))) = None.
Proof.
  split; [eexists; split; reflexivity|]. split; [|split; reflexivity].
  exists [("name", JStr "SID"); ("domain", JStr ".google.com")], ".google.com", ".", ".com".
  repeat split.
Qed.

Example check_absent :
  check_auth_status Absent =
  mkAuth false "No authentication state found. Run authentication first." None.
Proof. reflexivity. Qed.

Example check_undecodable :
  check_auth_status
    (Present (inl (mkExn OtherException "Expecting value: line 1 column 1 (char 0)"))) =
  mkAuth false "Error reading state: Expecting value: line 1 column 1 (char 0)" None.
Proof. reflexivity. Qed.

Example check_no_cookies_key :
  check_auth_status (Present (inr (JObj [("origins", JArr [])]))) =
  mkAuth false "No Google cookies found in state. Re-authenticate." None.
Proof. reflexivity. Qed.

Example check_not_a_dict :
  check_auth_status (Present (inr (JArr []))) =
  mkAuth false "Error reading state: 'list' object has no attribute 'get'" None.
Proof. reflexivity. Qed.

Example check_null_domain :
  check_auth_status (Present (inr null_domain_state)) =
  mkAuth false "Error reading state: argument of type 'NoneType' is not iterable" None.
Proof. reflexivity. Qed.

End AuthSpec.

(** ** Source upload *)

Module UploadSpec.

Import Upload PyFacts.

(** *** What a computation adds to the history *)

Section Histories.

Variable B : browser.
Variable P : event -> Prop.

Lemma logs_logs (a b : list event) (w : world) :
  logs b (logs a w) = logs (a ++ b) w.
Proof. unfold logs. cbn. now rewrite app_assoc. Qed.

Lemma logs_nil (w : world) : logs [] w = w.
Proof. destruct w. unfold logs. cbn. now rewrite app_nil_r. Qed.

Lemma invoke_ok (c : call) (w : world) (a : ret c) :
  B (trace w) c = inr a -> invoke B c w = (Ok a, logs [Ev c (inr a)] w).
Proof. intros H. unfold invoke. now rewrite H. Qed.

Lemma invoke_raised (c : call) (w : world) (e : exn) :
  B (trace w) c = inl e -> invoke B c w = (Raised e, logs [Ev c (inl e)] w).
Proof. intros H. unfold invoke. now rewrite H. Qed.

Lemma sleep_logs (ms : N) (w : world) : sleep ms w = (Ok tt, logs [Slept ms] w).
Proof. reflexivity. Qed.

Lemma bind_bind {A A' C} (m : M A) (k : A -> M A') (k' : A' -> M C) (w : world) :
  bind (bind m k) k' w = bind m (fun a => bind (k a) k') w.
Proof. unfold bind. now destruct (m w) as [[a|e] w1]. Qed.

Lemma bind_pure {A C} (a : A) (k : A -> M C) (w : world) :
  bind (pure a) k w = k a w.
Proof. reflexivity. Qed.

Lemma pure_run {A} (a : A) (w : world) : pure a w = (Ok a, w).
Proof. reflexivity. Qed.

Lemma bind_sleep {C} (ms : N) (k : unit -> M C) (w : world) :
  bind (sleep ms) k w = k tt (logs [Slept ms] w).
Proof. reflexivity. Qed.

Lemma bind_os_path_exists {C} (path : json) (k : bool -> M C) (w : world) :
  bind (os_path_exists path) k w =
  match path_check w path with
  | inl e => (Raised e, w)
  | inr present => k present w
  end.
Proof. unfold bind, os_path_exists, lift. now destruct (path_check w path). Qed.

Lemma bind_lift {A C} (r : exn + A) (k : A -> M C) (w : world) :
  bind (lift r) k w =
  match r with
  | inl e => (Raised e, w)
  | inr a => k a w
  end.
Proof. unfold bind, lift. now destruct r. Qed.

Lemma bind_invoke_ok {C} (c : call) (k : ret c -> M C) (w : world) (a : ret c) :
  B (trace w) c = inr a ->
  bind (invoke B c) k w = k a (logs [Ev c (inr a)] w).
Proof. intros H. unfold bind. now rewrite (invoke_ok c w a H). Qed.

Lemma bind_invoke_raised {C} (c : call) (k : ret c -> M C) (w : world) (e : exn) :
  B (trace w) c = inl e ->
  bind (invoke B c) k w = (Raised e, logs [Ev c (inl e)] w).
Proof. intros H. unfold bind. now rewrite (invoke_raised c w e H). Qed.

Lemma bind_storage_ok {C} (k : unit -> M C) (w : world) (j : json) :
  B (trace w) (StorageState STATE_PATH) = inr j ->
  bind (storage_state B STATE_PATH) k w =
  k tt (write_state j (logs [Ev (StorageState STATE_PATH) (inr j)] w)).
Proof. intros H. unfold bind, storage_state. now rewrite H. Qed.

Lemma bind_storage_raised {C} (k : unit -> M C) (w : world) (e : exn) :
  B (trace w) (StorageState STATE_PATH) = inl e ->
  bind (storage_state B STATE_PATH) k w =
  (Raised e, logs [Ev (StorageState STATE_PATH) (inl e)] w).
Proof. intros H. unfold bind, storage_state. now rewrite H. Qed.

Lemma emits_pure {A} (a : A) : emits P (pure a).
Proof. intros w. exists []. cbn. now rewrite logs_nil. Qed.

Lemma emits_leave {S} (s : S) (x : exit) : emits P (leave s x).
Proof. intros w. exists []. cbn. now rewrite logs_nil. Qed.

Lemma emits_lift {A} (r : exn + A) : emits P (lift r).
Proof. intros w. exists []. cbn. now rewrite logs_nil. Qed.

Lemma emits_os_path_exists (path : json) : emits P (os_path_exists path).
Proof. intros w. exists []. cbn. now rewrite logs_nil. Qed.

Lemma emits_sleep (ms : N) : P (Slept ms) -> emits P (sleep ms).
Proof. intros H w. exists [Slept ms]. cbn. auto. Qed.

Lemma emits_print (line : string) : P (Stderr line) -> emits P (print_stderr line).
Proof. intros H w. exists [Stderr line]. cbn. auto. Qed.

Lemma emits_invoke (c : call) : (forall r, P (Ev c r)) -> emits P (invoke B c).
Proof.
  intros H w. exists [Ev c (B (trace w) c)]. unfold invoke. cbn. auto.
Qed.

Lemma emits_bind {A C} (m : M A) (k : A -> M C) :
  emits P m -> (forall a, emits P (k a)) -> emits P (bind m k).
Proof.
  intros Hm Hk w. unfold bind.
  destruct (Hm w) as (e1 & E1 & F1). destruct (m w) as [[a|e] w1]; cbn in E1.
  - destruct (Hk a w1) as (e2 & E2 & F2). exists (e1 ++ e2).
    rewrite E2, E1, logs_logs. split; [reflexivity | apply Forall_app; now split].
  - exists e1. now split.
Qed.

Lemma emits_try_except {A} (body : M A) (handler : exn -> M A) :
  emits P body -> (forall e, emits P (handler e)) ->
  emits P (try_except body handler).
Proof.
  intros Hb Hh w. unfold try_except.
  destruct (Hb w) as (e1 & E1 & F1). destruct (body w) as [[a|e] w1]; cbn in E1.
  - exists e1. now split.
  - destruct (Hh e w1) as (e2 & E2 & F2). exists (e1 ++ e2).
    rewrite E2, E1, logs_logs. split; [reflexivity | apply Forall_app; now split].
Qed.

Lemma emits_finally {A} (body : M A) (cleanup : M unit) :
  emits P body -> emits P cleanup -> emits P (finally body cleanup).
Proof.
  intros Hb Hc w. unfold finally.
  destruct (Hb w) as (e1 & E1 & F1). destruct (body w) as [r w1]. cbn in E1.
  destruct (Hc w1) as (e2 & E2 & F2). destruct (cleanup w1) as [[u|e] w2];
    cbn in E2 |- *; exists (e1 ++ e2); rewrite E2, E1, logs_logs;
    (split; [reflexivity | apply Forall_app; now split]).
Qed.

Lemma emits_step {S A} (m : M A) (s : S) (k : A -> block S) :
  emits P m -> (forall a, emits P (k a)) -> emits P (step m s k).
Proof.
  intros Hm Hk w. unfold step.
  destruct (Hm w) as (e1 & E1 & F1). destruct (m w) as [[a|e] w1]; cbn in E1.
  - destruct (Hk a w1) as (e2 & E2 & F2). exists (e1 ++ e2).
    rewrite E2, E1, logs_logs. split; [reflexivity | apply Forall_app; now split].
  - exists e1. now split.
Qed.

Lemma starts_invoke (c : call) : starts_with B c (invoke B c).
Proof. intros w. now exists []. Qed.

Lemma starts_then {R} (c : call) (w w1 : world) (rest : list event)
  (g : world -> R * world) :
  trace w1 = trace w ++ Ev c (B (trace w) c) :: rest ->
  emits (fun _ => True) g ->
  exists rest', trace (snd (g w1)) = trace w ++ Ev c (B (trace w) c) :: rest'.
Proof.
  intros E1 Hg. destruct (Hg w1) as (e2 & E2 & _). exists (rest ++ e2).
  rewrite E2. cbn. rewrite E1, <- app_assoc. reflexivity.
Qed.

Lemma starts_bind {A C} (c : call) (m : M A) (k : A -> M C) :
  starts_with B c m -> (forall a, emits (fun _ => True) (k a)) ->
  starts_with B c (bind m k).
Proof.
  intros Hm Hk w. unfold bind.
  destruct (Hm w) as (r1 & E1). destruct (m w) as [[a|e] w1]; cbn in E1.
  - exact (starts_then c w w1 r1 (k a) E1 (Hk a)).
  - now exists r1.
Qed.

Lemma starts_try_except {A} (c : call) (body : M A) (handler : exn -> M A) :
  starts_with B c body -> (forall e, emits (fun _ => True) (handler e)) ->
  starts_with B c (try_except body handler).
Proof.
  intros Hb Hh w. unfold try_except.
  destruct (Hb w) as (r1 & E1). destruct (body w) as [[a|e] w1]; cbn in E1.
  - now exists r1.
  - exact (starts_then c w w1 r1 (handler e) E1 (Hh e)).
Qed.

Lemma starts_step {S A} (c : call) (m : M A) (s : S) (k : A -> block S) :
  starts_with B c m -> (forall a, emits (fun _ => True) (k a)) ->
  starts_with B c (step m s k).
Proof.
  intros Hm Hk w. unfold step.
  destruct (Hm w) as (r1 & E1). destruct (m w) as [[a|e] w1]; cbn in E1.
  - exact (starts_then c w w1 r1 (k a) E1 (Hk a)).
  - now exists r1.
Qed.

(** After a first call [c], the rest of a block adds only events of [P]. *)
Lemma step_invoke_then {S} (c : call) (s : S) (k : ret c -> block S) :
  (forall a, emits P (k a)) ->
  forall w, exists rest,
    trace (snd (step (invoke B c) s k w)) = trace w ++ Ev c (B (trace w) c) :: rest /\
    Forall P rest.
Proof.
  intros Hk w. unfold step, invoke.
  destruct (B (trace w) c) as [e|a].
  - exists []. now split.
  - destruct (Hk a (log (Ev c (inr a)) w)) as (ext & E & F).
    exists ext. rewrite E. cbn. rewrite <- app_assoc. now split.
Qed.

End Histories.

Lemma emits_weaken {R} (P Q : event -> Prop) (f : world -> R * world) :
  (forall e, P e -> Q e) -> emits P f -> emits Q f.
Proof.
  intros PQ H w. destruct (H w) as (ext & E & F). exists ext.
  split; [exact E|]. revert F. apply Forall_impl. exact PQ.
Qed.

(** Runs the next call of the goal: one case per answer of the browser. *)
Ltac next_call B :=
  match goal with
  | |- context [invoke B ?c ?w] =>
      let H := fresh "H" in
      let e := fresh "e" in
      let a := fresh "a" in
      destruct (B (trace w) c) as [e|a] eqn:H;
      [ rewrite (invoke_raised B c w e H) | rewrite (invoke_ok B c w a H) ];
      cbv beta iota; rewrite ?logs_logs; cbn [app]
  end.

(** Runs a computation call by call: one case per answer of the browser. *)
Ltac run_call B :=
  match goal with
  | |- context [@bind ?A ?C (invoke B ?c) ?k ?w] =>
      let H := fresh "H" in
      let e := fresh "e" in
      let a := fresh "a" in
      destruct (B (trace w) c) as [e|a] eqn:H;
      [ replace (@bind A C (invoke B c) k w)
          with (@Raised C e, logs [Ev c (inl e)] w)
          by (symmetry; exact (bind_invoke_raised B c k w e H))
      | replace (@bind A C (invoke B c) k w)
          with (k a (logs [Ev c (inr a)] w))
          by (symmetry; exact (bind_invoke_ok B c k w a H)) ]
  | |- context [@bind ?A ?C (storage_state B STATE_PATH) ?k ?w] =>
      let H := fresh "H" in
      let e := fresh "e" in
      let j := fresh "j" in
      destruct (B (trace w) (StorageState STATE_PATH)) as [e|j] eqn:H;
      [ rewrite (bind_storage_raised B k w e H)
      | rewrite (bind_storage_ok B k w j H) ]
  | |- context [invoke B ?c ?w] =>
      let H := fresh "H" in
      let e := fresh "e" in
      let a := fresh "a" in
      destruct (B (trace w) c) as [e|a] eqn:H;
      [ rewrite (invoke_raised B c w e H) | rewrite (invoke_ok B c w a H) ]
  end.

Ltac run B :=
  repeat first
    [ rewrite bind_bind
    | rewrite bind_pure
    | rewrite bind_sleep
    | rewrite bind_os_path_exists
    | rewrite bind_lift
    | rewrite sleep_logs
    | rewrite pure_run
    | run_call B
    | progress (cbv beta iota; rewrite ?logs_logs; cbn [app])
    | match goal with
      | |- context [match ?x with Some _ => _ | None => _ end] => is_var x; destruct x
      | |- context [match path_check ?w ?p with inl _ => _ | inr _ => _ end] =>
          let E := fresh "E" in
          let e := fresh "e" in
          let present := fresh "present" in
          destruct (path_check w p) as [e|present] eqn:E
      | |- context [if negb ?x then _ else _] =>
          let E := fresh "E" in destruct x eqn:E; cbn [negb]
      end ].

(** Closes one path of a run: the facts about it hold by computation, or
    their premise is false on this path. *)
Ltac absurd_premise :=
  match goal with
  | H : _ = _ |- _ => vm_compute in H; discriminate H
  end.

Ltac close_path :=
  intros;
  repeat match goal with H : _ /\ _ |- _ => destruct H end;
  first
    [ congruence
    | absurd_premise
    | solve [repeat split; vm_compute; reflexivity]
    | solve [do 2 eexists; split; reflexivity]
    | solve [eexists; split;
             [reflexivity | first [left; discriminate | right; eauto 6]]] ].

Ltac close_run :=
  unfold pure;
  eexists _, _;
  (split; [first [ reflexivity
                 | apply (f_equal2 pair); [reflexivity | symmetry; apply logs_nil] ]|]);
  repeat match goal with
         | |- _ /\ _ => split
         | |- _ <-> _ => split
         end;
  close_path.

(** The answers of the calls that return nothing. *)
Ltac units :=
  repeat match goal with
         | a : ret ?c |- _ =>
             let t := eval cbv in (ret c) in
             lazymatch t with unit => destruct a end
         end.

(** Breaks a computation into the calls it makes. *)
Ltac emits_go :=
  repeat first
    [ apply emits_pure | apply emits_leave | apply emits_os_path_exists
    | apply emits_lift
    | apply emits_sleep | apply emits_print
    | apply emits_invoke; intros ?
    | apply emits_bind; [|intros ?]
    | apply emits_try_except; [|intros ?]
    | apply emits_finally
    | apply emits_step; [|intros ?]
    | match goal with
      | |- emits _ (match ?x with _ => _ end) => destruct x
      | |- emits _ (if ?x then _ else _) => destruct x
      end ].

(** Finds an event in a history written with [++] and [::]. *)
Ltac pick := solve [ reflexivity | assumption | left; pick | right; pick ].
Ltac find_event :=
  repeat first [ rewrite in_app_iff | progress cbn [In app] ]; pick.

(** Closes the description of a successful run: the handles are read off
    the history. *)
Ltac read_off :=
  repeat match goal with
         | |- exists _, _ => eexists
         | |- _ /\ _ => split
         end;
  first [ reflexivity | find_event | (vm_compute; reflexivity) ].

Section Facts.

Variable B : browser.
Variable lower : string -> string.
Variable repr : json -> string.

(** C5. With no state file, [upload_sources] and [list_notebooks] both
    return [{"success": False, "error": "Not authenticated. Run
    authentication first."}] and leave the world as it was: the history
    gains no event, so no call reached the browser. *)
Theorem unauthenticated_refused
  (notebook_name : string) (sources : json) (headless : bool) (w : world) :
  state_file w = Absent ->
  upload_sources B lower repr notebook_name sources headless w =
    (Ok (ErrorReply "Not authenticated. Run authentication first."), w) /\
  list_notebooks B headless w =
    (Ok (ErrorReply "Not authenticated. Run authentication first."), w).
Proof.
  intros H. unfold upload_sources, list_notebooks. rewrite H. now split.
Qed.

(** C7. [add_file_source] on a value for which [os.path.exists] answers
    [False] returns [{"success": False, "error": "File not found:
    <path>"}] and leaves the world as it was: the existence check comes
    before any element lookup or click. The same holds for the request as
    [upload_sources] dispatches it. For a value that is a string the
    check is that of the path it names, and <path> is that string. *)
Theorem missing_file_fails_first (value : json) (w : world) :
  path_check w value = inr false ->
  add_file_source B repr value w =
    (Ok (failure ("File not found: " ^ py_str repr value)), w) /\
  (forall s,
     source_type s = inr (JStr "file") -> source_value s = inr value ->
     dispatch B repr s w =
       (Ok (value, failure ("File not found: " ^ py_str repr value)), w)) /\
  (forall file_path,
     value = JStr file_path ->
     path_exists w file_path = false /\ py_str repr value = file_path).
Proof.
  intros H.
  assert (E : add_file_source B repr value w =
              (Ok (failure ("File not found: " ^ py_str repr value)), w)).
  { unfold add_file_source, try_except. rewrite bind_os_path_exists.
    now rewrite H. }
  split; [exact E|]. split.
  - intros s Ht Hv. unfold dispatch. rewrite Ht, Hv, !bind_lift.
    cbn [is_str String.eqb Ascii.eqb Bool.eqb]. unfold bind at 1. now rewrite E.
  - intros file_path ->. cbn in H. injection H as H. now split.
Qed.


(** The per-source loop never looks for a notebook-creation control. *)
Lemma add_sources_no_creation (sources : list source) (results : upload_result) :
  emits (fun e => creation_query e = false) (add_sources B repr sources results).
Proof.
  revert results. induction sources as [|s rest IH]; intros results; cbn [add_sources].
  - apply emits_leave.
  - apply emits_step.
    + unfold dispatch, add_website_source, add_file_source, query_either.
      emits_go; reflexivity.
    + intros result. apply emits_step; [apply emits_sleep; reflexivity|].
      intros _. apply IH.
Qed.

Lemma for_sources_no_creation (sources : json) (results : upload_result) :
  emits (fun e => creation_query e = false) (for_sources B repr sources results).
Proof.
  unfold for_sources. destruct (py_iter sources) as [e|items].
  - apply emits_leave.
  - apply add_sources_no_creation.
Qed.

Lemma find_notebook_some (notebooks : list notebook) (name : string) (nb : notebook) :
  find_notebook lower notebooks name = Some nb <->
  exists before after,
    notebooks = before ++ nb :: after /\
    lower (title nb) = lower name /\
    Forall (fun x => lower (title x) <> lower name) before.
Proof.
  induction notebooks as [|x rest IH]; cbn [find_notebook].
  - split; [discriminate|]. intros (before & after & E & _).
    destruct before; discriminate.
  - destruct (String.eqb_spec (lower (title x)) (lower name)) as [Heq|Hne].
    + split.
      * intros [= <-]. exists [], rest. repeat split; auto.
      * intros (before & after & E & Hm & Hb). destruct before as [|y before].
        -- now inversion E.
        -- inversion E; subst y. inversion Hb; contradiction.
    + rewrite IH. split.
      * intros (before & after & -> & Hm & Hb). exists (x :: before), after.
        repeat split; auto.
      * intros (before & after & E & Hm & Hb). destruct before as [|y before].
        -- inversion E; subst x. contradiction.
        -- inversion E; subst. inversion Hb; subst. now exists before, after.
Qed.

Lemma find_notebook_none (notebooks : list notebook) (name : string) :
  find_notebook lower notebooks name = None <->
  Forall (fun x => lower (title x) <> lower name) notebooks.
Proof.
  induction notebooks as [|x rest IH]; cbn [find_notebook].
  - split; auto.
  - destruct (String.eqb_spec (lower (title x)) (lower name)) as [Heq|Hne].
    + split; [discriminate|]. intros H. inversion H; contradiction.
    + rewrite IH. split; [now constructor|]. intros H. now inversion H.
Qed.

(** C6. The resolver picks a notebook exactly when it is the first of the
    list whose lowered title equals the lowered name, and picks none exactly
    when no title matches. With a match, the next call clicks that
    notebook's element and from there on no notebook-creation control is
    ever looked up; without one, the next call is the lookup of the first
    creation control, that is [create_notebook]. *)
Theorem resolver_first_match (notebooks : list notebook) (notebook_name : string) :
  (forall nb,
     find_notebook lower notebooks notebook_name = Some nb <->
     exists before after,
       notebooks = before ++ nb :: after /\
       lower (title nb) = lower notebook_name /\
       Forall (fun x => lower (title x) <> lower notebook_name) before) /\
  (find_notebook lower notebooks notebook_name = None <->
     Forall (fun x => lower (title x) <> lower notebook_name) notebooks) /\
  (forall sources results w,
     let target := find_notebook lower notebooks notebook_name in
     exists first rest,
       trace (snd (open_or_create B repr target notebook_name sources results w)) =
         trace w ++ first :: rest /\
       match target with
       | Some nb =>
           first = Ev (Click (element nb)) (B (trace w) (Click (element nb))) /\
           Forall (fun e => creation_query e = false) (first :: rest)
       | None =>
           first = Ev (QuerySelector None CREATE_NEW)
                      (B (trace w) (QuerySelector None CREATE_NEW)) /\
           creation_query first = true
       end).
Proof.
  split; [|split].
  - intros nb. apply find_notebook_some.
  - apply find_notebook_none.
  - intros sources results w target.
    destruct target as [nb|]; cbn [open_or_create].
    + destruct (step_invoke_then B (fun e => creation_query e = false)
                  (Click (element nb)) results
                  (fun _ => step (sleep 2000) results
                              (fun _ => for_sources B repr sources results)))
        with (w := w)
        as (rest & E & F).
      { intros _. apply emits_step; [apply emits_sleep; reflexivity|].
        intros _. apply for_sources_no_creation. }
      eexists _, rest. split; [exact E|]. split; [reflexivity|].
      constructor; [reflexivity | exact F].
    + destruct (starts_step B (QuerySelector None CREATE_NEW)
                  (create_notebook B notebook_name) results
                  (fun created =>
                     if negb created
                     then leave (mark_failed results "Could not create notebook")
                                Returned
                     else for_sources B repr sources results)) with (w := w)
        as (rest & E).
      { unfold create_notebook, query_either.
        apply starts_try_except.
        - apply starts_bind; [|intros ?; emits_go; exact I].
          apply starts_bind; [apply starts_invoke | intros ?; emits_go; exact I].
        - intros e. emits_go; exact I. }
      { intros created. destruct (negb created); [apply emits_leave|].
        apply emits_weaken with (P := fun e => creation_query e = false); [auto|].
        apply for_sources_no_creation. }
      eexists _, rest. split; [exact E|]. split; reflexivity.
Qed.

Lemma titled_later (before ext : list event) (nb : notebook) :
  titled ext nb -> titled (before ++ ext) nb.
Proof.
  intros [[H E] | (el & H1 & H2)]; [left | right; exists el];
    split; auto; apply in_or_app; now right.
Qed.

Lemma lookup_counted (card : handle) (r : exn + option handle) (rest : list event) :
  length (filter title_lookup
            (Ev (QuerySelector (Some card) NOTEBOOK_TITLE) r :: rest)) =
  S (length (filter title_lookup rest)).
Proof. cbn [filter title_lookup]. now rewrite String.eqb_refl. Qed.

(** The loop over the cards. It reads the cards in order and stops at the
    first call that raises. What it appends are the entries of the cards
    it has read to the end, in order, each titled as the history shows:
    all the cards when no call raised, and otherwise the cards before the
    one whose reading raised. *)
Lemma collect_cards_run (cards : list handle) (acc : list notebook) (w : world) :
  exists new x ext,
    collect_cards B cards acc w = ((acc ++ new, x), logs ext w) /\
    Forall (titled ext) new /\
    map element new = firstn (length new) cards /\
    ((x = Fell /\ existsb raising ext = false /\
      length new = length cards /\
      length (filter title_lookup ext) = length cards) \/
     (exists e pre c,
        x = Threw e /\ ext = pre ++ [Ev c (inl e)] /\ existsb raising pre = false /\
        length (filter title_lookup ext) = S (length new) /\
        length new < length cards)).
Proof.
  revert acc w. induction cards as [|card cards IH]; intros acc w; cbn [collect_cards].
  - exists [], Fell, []. rewrite app_nil_r, logs_nil. repeat split; auto.
  - unfold step, card_title, bind.
    set (q := QuerySelector (Some card) NOTEBOOK_TITLE).
    next_call B; [|destruct a as [el|]; [next_call B|]].
    + exists [], (Threw e), [Ev q (inl e)]. rewrite app_nil_r.
      split; [reflexivity|]. split; [constructor|]. split; [reflexivity|].
      right. exists e, [], q. repeat split; cbn [length]; lia.
    + exists [], (Threw e), [Ev q (inr (Some el)); Ev (InnerText el) (inl e)].
      rewrite app_nil_r.
      split; [reflexivity|]. split; [constructor|]. split; [reflexivity|].
      right. exists e, [Ev q (inr (Some el))], (InnerText el).
      repeat split; cbn [length]; lia.
    + match goal with
      | |- context [collect_cards B cards ?acc' ?w'] =>
          destruct (IH acc' w') as (new & x & ext & E & F & C & X)
      end.
      exists (mkNotebook a card :: new), x,
             ([Ev q (inr (Some el)); Ev (InnerText el) (inr a)] ++ ext).
      rewrite E, logs_logs, <- app_assoc. split; [reflexivity|]. split; [|split].
      * constructor.
        -- right. exists el. cbn. auto.
        -- revert F. apply Forall_impl. intros nb. apply titled_later.
      * cbn. now rewrite C.
      * cbn [app]. unfold q. rewrite lookup_counted. cbn [filter title_lookup].
        destruct X as [(-> & R & L & N) | (e & pre & c & -> & -> & R & N & L)];
          [left | right].
        -- repeat split; cbn [length existsb raising orb]; auto.
        -- exists e, ([Ev q (inr (Some el)); Ev (InnerText el) (inr a)] ++ pre), c.
           rewrite <- app_assoc. repeat split; cbn [length]; auto; lia.
    + unfold pure.
      match goal with
      | |- context [collect_cards B cards ?acc' ?w'] =>
          destruct (IH acc' w') as (new & x & ext & E & F & C & X)
      end.
      exists (mkNotebook "Untitled" card :: new), x, ([Ev q (inr None)] ++ ext).
      rewrite E, logs_logs, <- app_assoc. split; [reflexivity|]. split; [|split].
      * constructor.
        -- left. cbn. auto.
        -- revert F. apply Forall_impl. intros nb. apply titled_later.
      * cbn. now rewrite C.
      * cbn [app]. unfold q. rewrite lookup_counted.
        destruct X as [(-> & R & L & N) | (e & pre & c & -> & -> & R & N & L)];
          [left | right].
        -- repeat split; cbn [length existsb raising orb]; auto.
        -- exists e, ([Ev q (inr None)] ++ pre), c.
           rewrite <- app_assoc. repeat split; cbn [length]; auto; lia.
Qed.

(** Every run of [get_notebooks], with the entries it has collected. Either
    no call raised: the wait and the listing returned, and the entries are
    those of all the cards listed. Or the first call that raised is the
    last call made: a timeout is swallowed and the entries collected so
    far are returned, any other exception is raised; the entries are none
    when the wait or the listing raised, and otherwise those of the cards
    before the one whose reading raised. *)
Lemma get_notebooks_run (w : world) :
  exists r ext notebooks,
    get_notebooks B w = (r, logs ext w) /\
    Forall (titled ext) notebooks /\
    ((existsb raising ext = false /\ r = Ok notebooks /\
      exists cards rest,
        ext = Ev (WaitForSelector NOTEBOOK_CARD 10000) (inr tt)
              :: Ev (QuerySelectorAll NOTEBOOK_CARD) (inr cards) :: rest /\
        map element notebooks = cards /\
        length (filter title_lookup rest) = length cards) \/
     (exists e pre c,
        ext = pre ++ [Ev c (inl e)] /\ existsb raising pre = false /\
        r = (if is_timeout e then Ok notebooks else Raised e) /\
        ((pre = [] /\ c = WaitForSelector NOTEBOOK_CARD 10000 /\ notebooks = []) \/
         (pre = [Ev (WaitForSelector NOTEBOOK_CARD 10000) (inr tt)] /\
          c = QuerySelectorAll NOTEBOOK_CARD /\ notebooks = []) \/
         (exists cards rest,
            ext = Ev (WaitForSelector NOTEBOOK_CARD 10000) (inr tt)
                  :: Ev (QuerySelectorAll NOTEBOOK_CARD) (inr cards) :: rest /\
            map element notebooks = firstn (length notebooks) cards /\
            length notebooks < length cards /\
            length (filter title_lookup rest) = S (length notebooks))))).
Proof.
  unfold get_notebooks, step.
  next_call B.
  { eexists (if is_timeout e then Ok [] else Raised e), _, [].
    split; [now destruct (is_timeout e)|]. split; [constructor|].
    right. exists e, [], (WaitForSelector NOTEBOOK_CARD 10000).
    repeat split. now left. }
  destruct a. next_call B.
  { eexists (if is_timeout e then Ok [] else Raised e), _, [].
    split; [now destruct (is_timeout e)|]. split; [constructor|].
    right. exists e, [Ev (WaitForSelector NOTEBOOK_CARD 10000) (inr tt)],
                  (QuerySelectorAll NOTEBOOK_CARD).
    repeat split. right. now left. }
  match goal with
  | |- context [collect_cards B ?cs ?acc ?w1] =>
      destruct (collect_cards_run cs acc w1) as (new & x & ext & E & F & C & X)
  end.
  rewrite E, logs_logs. cbn [app].
  assert (F' : Forall
                 (titled (Ev (WaitForSelector NOTEBOOK_CARD 10000) (inr tt)
                          :: Ev (QuerySelectorAll NOTEBOOK_CARD) (inr a) :: ext)) new).
  { revert F. apply Forall_impl. intros nb. apply (titled_later [_; _]). }
  destruct X as [(-> & R & L & N) | (e & pre & c & -> & -> & R & N & L)].
  - eexists (Ok new), _, new. split; [reflexivity|]. split; [exact F'|].
    left. split; [exact R|]. split; [reflexivity|].
    exists a, ext. split; [reflexivity|]. split; [|exact N].
    rewrite C, L. apply firstn_all.
  - eexists (if is_timeout e then Ok new else Raised e), _, new.
    split; [now destruct (is_timeout e)|]. split; [exact F'|].
    right. exists e, (Ev (WaitForSelector NOTEBOOK_CARD 10000) (inr tt)
                      :: Ev (QuerySelectorAll NOTEBOOK_CARD) (inr a) :: pre), c.
    split; [reflexivity|].
    split; [exact R|]. split; [reflexivity|]. right. right.
    exists a, (pre ++ [Ev c (inl e)]). repeat split; auto.
Qed.


Lemma ends_with_three {A} (l before : list A) (a b c : A) :
  rev l = c :: b :: a :: before -> l = rev before ++ [a; b; c].
Proof.
  intros H. rewrite <- (rev_involutive l), H. cbn. now rewrite <- !app_assoc.
Qed.

(** Every way [add_website_source] can go. It always returns a dict; the
    dict says success exactly when no call raised and each of the three
    controls was located by one of its selectors. It has then clicked the
    button and the option that were located, filled the input that was
    located with the value and pressed Enter, and done nothing else to
    the page. A control that neither selector located gives the failure
    that names it; a call that raised gives [str(e)]. *)
Lemma add_website_source_run (url : json) (w : world) :
  exists r ext,
    add_website_source B url w = (Ok r, logs ext w) /\
    (ar_success r = true <->
       existsb raising ext = false /\
       found ADD_SOURCE ADD_SOURCE_BUTTON ext = true /\
       found WEBSITE SOURCE_TYPE_WEBSITE ext = true /\
       found URL_INPUT WEBSITE_URL_INPUT ext = true) /\
    (ar_success r = true ->
       r = added_url url /\
       exists add option input,
         filter acts_on_page ext =
           [Ev (Click add) (inr tt); Ev (Click option) (inr tt);
            Ev (Fill input url) (inr tt); Ev (Press input "Enter") (inr tt)] /\
         (In (Ev (QuerySelector None ADD_SOURCE) (inr (Some add))) ext \/
          In (Ev (QuerySelector None ADD_SOURCE_BUTTON) (inr (Some add))) ext) /\
         (In (Ev (QuerySelector None WEBSITE) (inr (Some option))) ext \/
          In (Ev (QuerySelector None SOURCE_TYPE_WEBSITE) (inr (Some option))) ext) /\
         (In (Ev (QuerySelector None URL_INPUT) (inr (Some input))) ext \/
          In (Ev (QuerySelector None WEBSITE_URL_INPUT) (inr (Some input))) ext)) /\
    (missing ADD_SOURCE ADD_SOURCE_BUTTON ext = true ->
       r = failure "Could not find Add Source button") /\
    (missing WEBSITE SOURCE_TYPE_WEBSITE ext = true ->
       r = failure "Could not find Website option") /\
    (missing URL_INPUT WEBSITE_URL_INPUT ext = true ->
       r = failure "Could not find URL input") /\
    (existsb raising ext = true ->
       exists c e, last ext (Slept 0) = Ev c (inl e) /\ r = failure (exn_text e)) /\
    (ar_success r = false ->
       exists text, r = failure text /\
         (text <> "" \/ exists history c e, B history c = inl e /\ text = exn_text e)).
Proof.
  unfold add_website_source, try_except, query_either.
  run B; unfold pure; eexists _, _;
    (split; [reflexivity|]);
    (split; [split; close_path|]);
    (split; [first [ close_path | idtac ]|]);
    repeat match goal with |- _ /\ _ => split end;
    try close_path.
  all: intros _; split; [reflexivity|];
    repeat match goal with x : ret _ |- _ => destruct x end;
    eexists _, _, _; (split; [cbn [filter acts_on_page]; reflexivity|]);
    repeat split; first [left; find_event | right; find_event].
Qed.

(** Every way [add_file_source] can go. The dict says success exactly
    when the file exists, no call raised, the Add-source button was
    located by one of its selectors and the file input was located. It
    has then clicked the button that was located, clicked the Upload
    option when one of its selectors located it and skipped that step
    when none did, and set the value on the file input that was located.
    A path that does not exist, or on which the check raises, ends the
    operation before any call. *)
Lemma add_file_source_run (file_path : json) (w : world) :
  exists r ext,
    add_file_source B repr file_path w = (Ok r, logs ext w) /\
    (ar_success r = true <->
       path_check w file_path = inr true /\
       existsb raising ext = false /\
       found ADD_SOURCE ADD_SOURCE_BUTTON ext = true /\
       existsb (located FILE_INPUT) ext = true) /\
    (ar_success r = true ->
       r = added_file file_path /\
       exists add input,
         (In (Ev (QuerySelector None ADD_SOURCE) (inr (Some add))) ext \/
          In (Ev (QuerySelector None ADD_SOURCE_BUTTON) (inr (Some add))) ext) /\
         In (Ev (QuerySelector None FILE_INPUT) (inr (Some input))) ext /\
         ((missing UPLOAD SOURCE_TYPE_UPLOAD ext = true /\
           filter acts_on_page ext =
             [Ev (Click add) (inr tt); Ev (SetInputFiles input file_path) (inr tt)]) \/
          (exists option,
             (In (Ev (QuerySelector None UPLOAD) (inr (Some option))) ext \/
              In (Ev (QuerySelector None SOURCE_TYPE_UPLOAD) (inr (Some option))) ext) /\
             filter acts_on_page ext =
               [Ev (Click add) (inr tt); Ev (Click option) (inr tt);
                Ev (SetInputFiles input file_path) (inr tt)]))) /\
    (path_check w file_path = inr false ->
       r = failure ("File not found: " ^ py_str repr file_path) /\ ext = []) /\
    (forall e, path_check w file_path = inl e ->
       r = failure (exn_text e) /\ ext = []) /\
    (missing ADD_SOURCE ADD_SOURCE_BUTTON ext = true ->
       r = failure "Could not find Add Source button") /\
    (existsb (not_found FILE_INPUT) ext = true ->
       r = failure "Could not find file input") /\
    (existsb raising ext = true ->
       exists c e, last ext (Slept 0) = Ev c (inl e) /\ r = failure (exn_text e)) /\
    (ar_success r = false ->
       exists text, r = failure text /\
         (text <> "" \/
          (exists history c e, B history c = inl e /\ text = exn_text e) \/
          (exists e, path_check w file_path = inl e /\ text = exn_text e))).
Proof.
  unfold add_file_source, try_except, query_either.
  run B; unfold pure; eexists _, _;
    (split; [first [ reflexivity
                   | apply (f_equal2 pair); [reflexivity | symmetry; apply logs_nil] ]|]);
    (split; [split; close_path|]);
    (split; [first [ close_path | idtac ]|]);
    repeat match goal with |- _ /\ _ => split end;
    try close_path.
  { intros e0 [= <-]. now split. }
  all: intros _; split; [reflexivity|];
    repeat match goal with x : ret _ |- _ => destruct x end;
    eexists _, _;
    (split; [first [left; find_event | right; find_event]|]);
    (split; [find_event|]);
    first
      [ left; split; [vm_compute; reflexivity | cbn [filter acts_on_page]; reflexivity]
      | right; eexists;
        split; [ first [left; find_event | right; find_event]
               | cbn [filter acts_on_page]; reflexivity ] ].
Qed.


Lemma path_check_logs (ext : list event) (w : world) (path : json) :
  path_check (logs ext w) path = path_check w path.
Proof. now destruct path. Qed.

(** A request that is a dict always comes back with its value and a
    dict, and a failed one with an error text: a fixed message, or the
    text of an exception raised by the browser or by the check of the
    file. On anything else [source.get] raises before any call. *)
Lemma dispatch_run (s : source) (w : world) :
  match s with
  | JObj fields =>
      exists r ext,
        dispatch B repr s w =
          (Ok (dict_get fields "value" (JStr ""), r), logs ext w) /\
        (ar_success r = false ->
           exists text, r = failure text /\
             (text <> "" \/
              (exists history c e, B history c = inl e /\ text = exn_text e) \/
              (exists path e, path_check w path = inl e /\ text = exn_text e)))
  | _ => dispatch B repr s w = (Raised (AttributeError s "get"), w)
  end.
Proof.
  destruct s as [| | | | | |fields]; try reflexivity.
  unfold dispatch, source_type, source_value, py_get. rewrite !bind_lift.
  set (type := dict_get fields "type" (JStr "website")).
  set (value := dict_get fields "value" (JStr "")).
  destruct (is_str "website" type).
  - destruct (add_website_source_run value w)
      as (r & ext & E & _ & _ & _ & _ & _ & _ & H).
    exists r, ext. unfold bind at 1. rewrite E. split; [reflexivity|].
    intros F. destruct (H F) as (text & -> & [T|T]); eauto.
  - destruct (is_str "file" type).
    + destruct (add_file_source_run value w)
        as (r & ext & E & _ & _ & _ & _ & _ & _ & _ & H).
      exists r, ext. unfold bind at 1. rewrite E. split; [reflexivity|].
      intros F. destruct (H F) as (text & -> & [T|[T|(e & T1 & T2)]]); eauto 8.
    + exists (failure ("Unknown source type: " ^ py_str repr type)), [].
      rewrite logs_nil. split; [reflexivity|]. intros _.
      eexists. split; [reflexivity|]. left. discriminate.
Qed.

(** The loop visits the requests in order, one by one, and records each
    with its outcome. It runs to its end when every request is a dict;
    it is left at the first request that is not one, with the exception
    of [source.get], the requests before it being recorded. *)
Lemma add_sources_run (sources : list source) (results : upload_result) (w : world) :
  exists ext x,
    add_sources B repr sources results w =
      ((record_all results (outcomes B repr sources w), x), logs ext w) /\
    Forall (fun s => is_dict s = true)
           (firstn (length (outcomes B repr sources w)) sources) /\
    map source_value (firstn (length (outcomes B repr sources w)) sources) =
      map (fun done => inr (fst done)) (outcomes B repr sources w) /\
    ((x = Fell /\ length (outcomes B repr sources w) = length sources) \/
     (exists s,
        nth_error sources (length (outcomes B repr sources w)) = Some s /\
        is_dict s = false /\
        x = Threw (AttributeError s "get"))).
Proof.
  revert results w. induction sources as [|s rest IH]; intros results w.
  - exists [], Fell. rewrite logs_nil. cbn. repeat split; auto.
  - cbn [add_sources outcomes]. unfold step at 1.
    pose proof (dispatch_run s w) as D.
    destruct s as [| | | | | |fields]; cbv beta iota in D;
      try (rewrite D; eexists [], _; rewrite logs_nil;
           cbn [length firstn map record_all fold_left nth_error];
           (split; [reflexivity|]); (split; [constructor|]);
           (split; [reflexivity|]);
           right; eexists; repeat split; reflexivity).
    destruct D as (r & ext1 & E & _). rewrite E.
    unfold step at 1. rewrite sleep_logs, logs_logs. unfold log. rewrite logs_logs.
    destruct (IH (record_outcome results (dict_get fields "value" (JStr "")) r)
                 (logs (ext1 ++ [Slept 1000]) w))
      as (ext2 & x & E2 & F2 & V2 & X2).
    exists ((ext1 ++ [Slept 1000]) ++ ext2), x.
    cbv zeta. cbn [fst snd].
    rewrite E2, logs_logs. cbn [length firstn map fst]. unfold record_all.
    cbn [fold_left fst snd]. split; [reflexivity|].
    split; [constructor; [reflexivity | exact F2]|].
    split; [cbn [source_value py_get]; now rewrite V2|].
    destruct X2 as [[-> L] | (s' & N & D' & ->)].
    + left. split; [reflexivity | now rewrite L].
    + right. exists s'. repeat split; auto.
Qed.

(** Each outcome is what [dispatch] answered for its request. *)
Lemma outcomes_nth (sources : list source) (w : world) (i : nat)
  (done : json * add_result) :
  nth_error (outcomes B repr sources w) i = Some done ->
  exists s w0 ext,
    nth_error sources i = Some s /\
    (forall path, path_check w0 path = path_check w path) /\
    dispatch B repr s w0 = (Ok done, logs ext w0).
Proof.
  revert w i. induction sources as [|s rest IH]; intros w i; cbn [outcomes].
  - destruct i; discriminate.
  - pose proof (dispatch_run s w) as D.
    destruct s as [| | | | | |fields]; cbv beta iota in D;
      try (rewrite D; destruct i; discriminate).
    destruct D as (r & ext & E & _). rewrite E.
    destruct i as [|i]; cbn [nth_error].
    + intros [= <-]. now exists (JObj fields), w, ext.
    + intros H. destruct (IH _ _ H) as (s' & w0 & ext' & N & P & D').
      exists s', w0, ext'. split; [exact N|]. split; [|exact D'].
      intros path. rewrite P. unfold log. now rewrite !path_check_logs.
Qed.



Lemma outcomes_failures (sources : list source) (w : world) :
  Forall (fun done =>
            ar_success (snd done) = false ->
            exists text, snd done = failure text /\
              (text <> "" \/
               (exists history c e, B history c = inl e /\ text = exn_text e) \/
               (exists path e, path_check w path = inl e /\ text = exn_text e)))
         (outcomes B repr sources w).
Proof.
  revert w. induction sources as [|s rest IH]; intros w; cbn [outcomes].
  - constructor.
  - pose proof (dispatch_run s w) as D.
    destruct s as [| | | | | |fields]; cbv beta iota in D;
      try (rewrite D; constructor).
    destruct D as (r & ext & E & H). rewrite E.
    constructor; [exact H|].
    specialize (IH (log (Slept 1000) (logs ext w))).
    revert IH. apply Forall_impl. intros done H' F.
    destruct (H' F) as (text & T & [N|[X|(path & e & P & X)]]); eauto 8.
Qed.






(** A run of [upload_sources] that returns, the state file being there:
    the session was opened, the [try] block was left in one of its three
    ways, and then the state was saved, the browser closed and Playwright
    stopped, in this order. *)
Lemma upload_sources_run
  (notebook_name : string) (sources : json) (headless : bool)
  (w w' : world) (rp : reply upload_result) :
  file_exists (state_file w) = true ->
  upload_sources B lower repr notebook_name sources headless w = (Ok rp, w') ->
  exists results x w2 j,
    upload_try B lower repr notebook_name sources
      (mkResults true notebook_name [] [] None)
      (logs [Ev PlaywrightStart (inr tt); Ev (Launch headless) (inr tt);
             Ev (NewContext STATE_PATH) (inr tt); Ev NewPage (inr tt)] w) =
      ((results, x), w2) /\
    rp = Reply (match x with
                | Threw e => mark_failed results (exn_text e)
                | _ => results
                end) /\
    w' = logs [Ev Close (inr tt); Ev PlaywrightStop (inr tt)]
           (write_state j (logs [Ev (StorageState STATE_PATH) (inr j)] w2)).
Proof.
  intros Hf. unfold upload_sources. rewrite Hf. cbn [negb].
  unfold with_playwright, finally.
  run B; try (unfold pure; cbv beta iota; discriminate).
  destruct a, a0, a1, a2.
  match goal with
  | |- context [upload_try ?b ?l ?p ?n ?s ?r ?w0] =>
      destruct (upload_try b l p n s r w0) as [[results x] w2] eqn:T
  end.
  run B; try (unfold pure; cbv beta iota; discriminate).
  destruct a, a0. intros [= <- <-]. now exists results, x, w2, j.
Qed.

Lemma record_all_keeps (done : list (json * add_result)) (results : upload_result) :
  ur_success (record_all results done) = ur_success results /\
  ur_error (record_all results done) = ur_error results /\
  ur_notebook (record_all results done) = ur_notebook results.
Proof.
  unfold record_all. revert results. induction done as [|[v r] done IH]; intros results.
  - auto.
  - cbn [fold_left fst snd]. destruct (IH (record_outcome results v r))
      as (H1 & H2 & H3). rewrite H1, H2, H3.
    unfold record_outcome. now destruct (ar_success r).
Qed.

(** The ways out of the loop [for source in sources]: it ran to its end,
    every request being recorded; or it was left by an exception, of the
    iteration itself with nothing recorded, or of [source.get] with the
    requests before that one recorded. *)
Lemma for_sources_exits (sources : json) (results0 results : upload_result)
  (x : exit) (w w' : world) :
  for_sources B repr sources results0 w = ((results, x), w') ->
  match x with
  | Fell =>
      exists items,
        py_iter sources = inr items /\
        results = record_all results0 (outcomes B repr items w) /\
        length (outcomes B repr items w) = length items
  | Returned => False
  | Threw e =>
      (py_iter sources = inl e /\ results = results0) \/
      (exists items s,
         py_iter sources = inr items /\
         results = record_all results0 (outcomes B repr items w) /\
         nth_error items (length (outcomes B repr items w)) = Some s /\
         is_dict s = false /\ e = AttributeError s "get")
  end.
Proof.
  unfold for_sources. destruct (py_iter sources) as [e|items].
  - intros [= <- <- <-]. now left.
  - destruct (add_sources_run items results0 w) as (ext & x' & E & _ & _ & X).
    rewrite E. intros [= <- <- _].
    destruct X as [[-> L] | (s & N & D & ->)].
    + now exists items.
    + right. now exists items, s.
Qed.

(** The three ways out of the [try] block of [upload_sources]: the loop
    over the sources ran to its end; or [create_notebook] answered [False]
    and the block returned at once; or an exception was raised, by a call
    before the loop or in the loop by a request that is not a dict. *)
Lemma upload_try_exits (notebook_name : string) (sources : json)
  (results0 results : upload_result) (x : exit) (w w' : world) :
  upload_try B lower repr notebook_name sources results0 w = ((results, x), w') ->
  match x with
  | Fell =>
      exists items w0,
        py_iter sources = inr items /\
        results = record_all results0 (outcomes B repr items w0) /\
        length (outcomes B repr items w0) = length items
  | Returned =>
      results = mark_failed results0 "Could not create notebook" /\
      exists w0 w1, create_notebook B notebook_name w0 = (Ok false, w1)
  | Threw e =>
      results = results0 \/
      (exists items w0 s,
         py_iter sources = inr items /\
         results = record_all results0 (outcomes B repr items w0) /\
         nth_error items (length (outcomes B repr items w0)) = Some s /\
         is_dict s = false /\ e = AttributeError s "get")
  end.
Proof.
  assert (Hloop : forall w0 w1,
             for_sources B repr sources results0 w0 = ((results, x), w1) ->
             match x with
             | Fell =>
                 exists items w0,
                   py_iter sources = inr items /\
                   results = record_all results0 (outcomes B repr items w0) /\
                   length (outcomes B repr items w0) = length items
             | Returned =>
                 results = mark_failed results0 "Could not create notebook" /\
                 exists w0 w1, create_notebook B notebook_name w0 = (Ok false, w1)
             | Threw e =>
                 results = results0 \/
                 (exists items w0 s,
                    py_iter sources = inr items /\
                    results = record_all results0 (outcomes B repr items w0) /\
                    nth_error items (length (outcomes B repr items w0)) = Some s /\
                    is_dict s = false /\ e = AttributeError s "get")
             end).
  { intros w0 w1 E. pose proof (for_sources_exits _ _ _ _ _ _ E) as X.
    destruct x as [| |e].
    - destruct X as (items & X). now exists items, w0.
    - contradiction.
    - destruct X as [[_ X] | (items & s & X)]; [now left|].
      right. now exists items, w0, s. }
  unfold upload_try, step. run B; try (intros [= <- <- <-]; now left).
  match goal with
  | |- context [get_notebooks B ?w0] =>
      destruct (get_notebooks B w0) as [[notebooks|e] w1]
  end; [|intros [= <- <- <-]; now left].
  unfold open_or_create, step, leave.
  destruct (find_notebook lower notebooks notebook_name) as [nb|].
  - run B; try (intros [= <- <- <-]; now left).
    apply Hloop.
  - destruct (create_notebook B notebook_name w1) as [[[|]|e] w2] eqn:C; cbn [negb].
    + apply Hloop.
    + intros [= <- <- <-]. eauto.
    + intros [= <- <- <-]. now left.
Qed.

(** C9. In a run of [upload_sources] that returns, the state file being
    there, the top-level [success] is [True] exactly when the [try] block
    ran to its end, that is when the notebook was opened or created and
    the loop over the sources finished: the flag then does not depend on
    how many sources are in [failed]. It is [False] in the two other ways
    out of the block only: [create_notebook] answered [False] (error
    "Could not create notebook"), or an exception was caught (error
    [str(e)]). *)
Theorem success_flag
  (notebook_name : string) (sources : json) (headless : bool)
  (w w' : world) (rp : reply upload_result) :
  file_exists (state_file w) = true ->
  upload_sources B lower repr notebook_name sources headless w = (Ok rp, w') ->
  exists r results x w2,
    rp = Reply r /\
    upload_try B lower repr notebook_name sources
      (mkResults true notebook_name [] [] None)
      (logs [Ev PlaywrightStart (inr tt); Ev (Launch headless) (inr tt);
             Ev (NewContext STATE_PATH) (inr tt); Ev NewPage (inr tt)] w) =
      ((results, x), w2) /\
    (ur_success r = true <-> x = Fell) /\
    match x with
    | Fell =>
        ur_success r = true /\ ur_error r = None /\
        exists items w0,
          py_iter sources = inr items /\
          r = record_all (mkResults true notebook_name [] [] None)
                         (outcomes B repr items w0)
    | Returned =>
        r = mkResults false notebook_name [] [] (Some "Could not create notebook") /\
        exists w0 w3, create_notebook B notebook_name w0 = (Ok false, w3)
    | Threw e =>
        ur_success r = false /\ ur_error r = Some (exn_text e)
    end.
Proof.
  intros Hf Hrun.
  destruct (upload_sources_run _ _ _ _ _ _ Hf Hrun) as (results & x & w2 & j & T & -> & _).
  pose proof (upload_try_exits _ _ _ _ _ _ _ T) as X.
  eexists _, results, x, w2. split; [reflexivity|]. split; [exact T|].
  destruct x as [| |e].
  - destruct X as (items & w0 & I & -> & _).
    destruct (record_all_keeps (outcomes B repr items w0)
                (mkResults true notebook_name [] [] None)) as (H1 & H2 & _).
    split; [split; auto|]. split; [exact H1|]. split; [exact H2|]. now exists items, w0.
  - destruct X as (-> & Hc). split; [split; discriminate|]. now split.
  - split; [split; discriminate|]. now split.
Qed.

Lemma collect_cards_emits (P : event -> Prop) (cards : list handle)
  (acc : list notebook) :
  (forall c r, storage_call (Ev c r) = false -> P (Ev c r)) ->
  emits P (collect_cards B cards acc).
Proof.
  intros HP. revert acc. induction cards as [|card cards IH]; intros acc;
    cbn [collect_cards].
  - apply emits_leave.
  - apply emits_step; [|intros t; apply IH].
    unfold card_title. emits_go; now apply HP.
Qed.

Lemma get_notebooks_emits (P : event -> Prop) :
  (forall c r, storage_call (Ev c r) = false -> P (Ev c r)) ->
  emits P (get_notebooks B).
Proof.
  intros HP w. unfold get_notebooks.
  match goal with
  | |- context [step ?m ?s ?k w] =>
      assert (H : emits P (step m s k));
      [|destruct (H w) as (ext & E & F); destruct (step m s k w) as [[nbs x] w1]]
  end.
  - apply emits_step; [apply emits_invoke; intros r; now apply HP|].
    intros _. apply emits_step; [apply emits_invoke; intros r; now apply HP|].
    intros cards. now apply collect_cards_emits.
  - cbn in E. exists ext. split; [|exact F].
    destruct x as [| |e]; try exact E. now destruct (is_timeout e).
Qed.

(** The operations on the page never make a session call. *)
Lemma collect_cards_page_events (cards : list handle) (acc : list notebook) :
  emits (fun e => session_call e = false) (collect_cards B cards acc).
Proof.
  revert acc. induction cards as [|card cards IH]; intros acc; cbn [collect_cards].
  - apply emits_leave.
  - apply emits_step; [|intros t; apply IH].
    unfold card_title. emits_go; reflexivity.
Qed.

Lemma get_notebooks_page_events :
  emits (fun e => session_call e = false) (get_notebooks B).
Proof.
  intros w. unfold get_notebooks.
  match goal with
  | |- context [step ?m ?s ?k w] =>
      assert (H : emits (fun e => session_call e = false) (step m s k));
      [|destruct (H w) as (ext & E & F); destruct (step m s k w) as [[nbs x] w1]]
  end.
  - apply emits_step; [apply emits_invoke; reflexivity|].
    intros _. apply emits_step; [apply emits_invoke; reflexivity|].
    intros cards. apply collect_cards_page_events.
  - cbn in E. exists ext. split; [|exact F].
    destruct x as [| |e]; try exact E. now destruct (is_timeout e).
Qed.

Lemma add_sources_page_events (sources : list source) (results : upload_result) :
  emits (fun e => session_call e = false) (add_sources B repr sources results).
Proof.
  revert results. induction sources as [|s rest IH]; intros results; cbn [add_sources].
  - apply emits_leave.
  - apply emits_step.
    + unfold dispatch, add_website_source, add_file_source, query_either.
      emits_go; reflexivity.
    + intros result. apply emits_step; [apply emits_sleep; reflexivity|].
      intros _. apply IH.
Qed.

Lemma for_sources_page_events (sources : json) (results : upload_result) :
  emits (fun e => session_call e = false) (for_sources B repr sources results).
Proof.
  unfold for_sources. destruct (py_iter sources) as [e|items].
  - apply emits_leave.
  - apply add_sources_page_events.
Qed.

Lemma upload_try_page_events (notebook_name : string) (sources : json)
  (results : upload_result) :
  emits (fun e => session_call e = false)
        (upload_try B lower repr notebook_name sources results).
Proof.
  unfold upload_try.
  apply emits_step; [apply emits_invoke; reflexivity|]. intros _.
  apply emits_step; [apply emits_invoke; reflexivity|]. intros _.
  apply emits_step; [apply emits_sleep; reflexivity|]. intros _.
  apply emits_step; [apply get_notebooks_page_events|].
  intros notebooks. unfold open_or_create.
  destruct (find_notebook lower notebooks notebook_name) as [nb|].
  - apply emits_step; [apply emits_invoke; reflexivity|]. intros _.
    apply emits_step; [apply emits_sleep; reflexivity|]. intros _.
    apply for_sources_page_events.
  - apply emits_step.
    + unfold create_notebook, query_either. emits_go; reflexivity.
    + intros created. destruct (negb created);
        [apply emits_leave | apply for_sources_page_events].
Qed.

Lemma page_events_no_close (l : list event) :
  Forall (fun e => session_call e = false) l -> existsb close_call l = false.
Proof.
  induction 1 as [|e l He _ IH]; [reflexivity|]. cbn. rewrite IH, orb_false_r.
  destruct e as [c r| |]; try reflexivity. destruct c; try reflexivity; discriminate.
Qed.

Lemma page_events_no_saved (l : list event) :
  Forall (fun e => session_call e = false) l -> existsb saved l = false.
Proof.
  induction 1 as [|e l He _ IH]; [reflexivity|]. cbn. rewrite IH, orb_false_r.
  destruct e as [c r| |]; try reflexivity. destruct c; try reflexivity; discriminate.
Qed.

Lemma page_events_no_failure (l : list event) :
  Forall (fun e => session_call e = false) l -> existsb session_failure l = false.
Proof.
  induction 1 as [|e l He _ IH]; [reflexivity|]. cbn [existsb].
  unfold session_failure at 1. now rewrite He, IH.
Qed.

Lemma page_events_not_opening (l : list event) :
  Forall (fun e => session_call e = false) l -> existsb page_opened l = false.
Proof.
  induction 1 as [|e l He _ IH]; [reflexivity|]. cbn. rewrite IH, orb_false_r.
  destruct e as [c r| |]; try reflexivity. destruct c; try reflexivity; discriminate.
Qed.

(** Every run of [upload_sources], the state file being there. *)
Lemma upload_sources_cleanup
  (notebook_name : string) (sources : json) (headless : bool) (w : world) :
  file_exists (state_file w) = true ->
  exists ext,
    trace (snd (upload_sources B lower repr notebook_name sources headless w)) =
      trace w ++ ext /\
    ((exists rp, fst (upload_sources B lower repr notebook_name sources headless w) =
                 Ok rp) <->
     existsb session_failure ext = false) /\
    (existsb page_opened ext = false ->
       existsb storage_call ext = false /\ existsb close_call ext = false /\
       state_file (snd (upload_sources B lower repr notebook_name sources headless w)) =
         state_file w) /\
    (existsb page_opened ext = true ->
       exists results x block saving tail,
         upload_try B lower repr notebook_name sources
           (mkResults true notebook_name [] [] None)
           (logs [Ev PlaywrightStart (inr tt); Ev (Launch headless) (inr tt);
                  Ev (NewContext STATE_PATH) (inr tt); Ev NewPage (inr tt)] w) =
           ((results, x),
            logs block
              (logs [Ev PlaywrightStart (inr tt); Ev (Launch headless) (inr tt);
                     Ev (NewContext STATE_PATH) (inr tt); Ev NewPage (inr tt)] w)) /\
         Forall (fun e => session_call e = false) block /\
         ext = [Ev PlaywrightStart (inr tt); Ev (Launch headless) (inr tt);
                Ev (NewContext STATE_PATH) (inr tt); Ev NewPage (inr tt)]
               ++ block ++ Ev (StorageState STATE_PATH) saving :: tail /\
         match saving with
         | inr j =>
             state_file
               (snd (upload_sources B lower repr notebook_name sources headless w)) =
               Present (inr j) /\
             exists closing stopping,
               tail = [Ev Close closing; Ev PlaywrightStop stopping] /\
               (existsb session_failure ext = false ->
                  fst (upload_sources B lower repr notebook_name sources headless w) =
                  Ok (Reply (match x with
                             | Threw e => mark_failed results (exn_text e)
                             | _ => results
                             end)))
         | inl e =>
             state_file
               (snd (upload_sources B lower repr notebook_name sources headless w)) =
               state_file w /\
             exists stopping, tail = [Ev PlaywrightStop stopping]
         end).
Proof.
  intros Hf. unfold upload_sources. rewrite Hf. cbn [negb].
  unfold with_playwright, finally.
  run B; units; rewrite ?logs_logs; cbn [app];
  match goal with
  | |- context [upload_try ?b ?l ?p ?n ?s ?r ?w0] =>
      destruct (upload_try_page_events n s r w0) as (block & E & F);
      destruct (upload_try b l p n s r w0) as [[results x] w2] eqn:T;
      cbn [snd] in E; subst w2;
      pose proof (page_events_no_close _ F) as Hc;
      pose proof (page_events_no_saved _ F) as Hs;
      pose proof (page_events_no_failure _ F) as Hn;
      pose proof (page_events_not_opening _ F) as Ho
  end;
  run B; units.
  all: cbn [snd fst trace logs write_state state_file];
    repeat (progress (rewrite <- ?app_assoc; cbn [app]));
    eexists; (split; [reflexivity|]).
  all: cbn [existsb]; rewrite ?existsb_app; cbn [existsb];
    rewrite ?Hc, ?Hs, ?Hn, ?Ho;
    cbn [session_failure session_call raising page_opened storage_call close_call
         andb orb].
  all: split; [split; [intros [rp [=]]; reflexivity | intros [=]; eauto]|].
  all: split; [intros [=]; repeat split; reflexivity|].
  all: try discriminate.
  all: intros _; exists results, x, block; eexists _, _;
    (split; [exact T|]); (split; [exact F|]); (split; [reflexivity|]);
    cbv beta iota.
  all: split; [reflexivity|]; eexists; try eexists;
    first [ reflexivity
          | split; [reflexivity | intros E; first [discriminate E | reflexivity]] ].
Qed.




End Facts.

Lemma resolver_first_match_witness :
  find_notebook ascii_lower shelf "my notes" = Some (mkNotebook "My Notes" 2).
Proof.
  apply (proj1 (resolver_first_match (page_browser blank_page) ascii_lower scalar_repr
                  shelf "my notes")).
  exists [mkNotebook "Plans" 1], [mkNotebook "MY NOTES" 3].
  split; [reflexivity | split; [reflexivity|]].
  constructor; [vm_compute; discriminate | constructor].
Defined.









Example three_requests_result :
  fst (add_sources (page_browser studio) scalar_repr three_requests
         (mkResults true "my notes" [] [] None) signed_in) =
  (mkResults true "my notes" [JStr "https://example.org"; JStr "notes.pdf"]
             [mkFailed (JStr "gone.pdf") "File not found: gone.pdf"] None,
   Fell).
Proof. vm_compute. reflexivity. Qed.

Example three_requests_upload :
  fst (upload_sources (page_browser studio) ascii_lower scalar_repr "my notes"
         (JArr three_requests) true signed_in) =
  Ok (Reply (mkResults true "my notes" [JStr "https://example.org"; JStr "notes.pdf"]
                       [mkFailed (JStr "gone.pdf") "File not found: gone.pdf"] None)).
Proof. vm_compute. reflexivity. Qed.

(** A batch whose second element is a string: the first request is
    recorded, then [source.get] raises, the loop is left and the
    exception is caught; the third request is never handled. *)
Example broken_requests_upload :
  fst (upload_sources (page_browser studio) ascii_lower scalar_repr "my notes"
         (JArr broken_requests) true signed_in) =
  Ok (Reply (mkResults false "my notes" [JStr "https://example.org"] []
                       (Some "'str' object has no attribute 'get'"))).
Proof. vm_compute. reflexivity. Qed.

(** Sources that are not a list: a number cannot be iterated, and a dict
    is iterated by its keys, which are strings. *)
Example sources_not_a_list :
  fst (upload_sources (page_browser studio) ascii_lower scalar_repr "my notes"
         (JInt 3) true signed_in) =
    Ok (Reply (mkResults false "my notes" [] []
                         (Some "'int' object is not iterable"))) /\
  fst (upload_sources (page_browser studio) ascii_lower scalar_repr "my notes"
         (website_request "https://example.org") true signed_in) =
    Ok (Reply (mkResults false "my notes" [] []
                         (Some "'str' object has no attribute 'get'"))).
Proof. split; vm_compute; reflexivity. Qed.

(** A request whose type is [null]. *)
Example null_type_request :
  fst (dispatch (page_browser blank_page) scalar_repr
         (JObj [("type", JNull); ("value", JInt 7)]) signed_in) =
  Ok (JInt 7, failure "Unknown source type: None").
Proof. vm_compute. reflexivity. Qed.

Example upload_saves_the_session :
  state_file (snd (upload_sources (page_browser studio) ascii_lower scalar_repr
                     "my notes" (JArr three_requests) true signed_in)) =
  Present (inr Auth.refreshed_state).
Proof. vm_compute. reflexivity. Qed.


Example get_notebooks_studio :
  fst (get_notebooks (page_browser studio) signed_in) =
  Ok [mkNotebook "Plans" 1; mkNotebook "My Notes" 2; mkNotebook "Untitled" 3].
Proof. vm_compute. reflexivity. Qed.

(** A notebook is created and both sources fail: [success] is [True]. *)
Lemma success_flag_witness :
  exists r,
    fst (upload_sources (page_browser create_only) ascii_lower scalar_repr "Notes"
           (JArr two_requests) true signed_in) = Ok (Reply r) /\
    ur_success r = true /\
    ur_uploaded r = [] /\
    length (ur_failed r) = 2.
Proof.
  assert (Hrun : exists w',
             upload_sources (page_browser create_only) ascii_lower scalar_repr "Notes"
               (JArr two_requests) true signed_in =
             (Ok (Reply (mkResults true "Notes" []
                           [mkFailed (JStr "https://example.org")
                                     "Could not find Add Source button";
                            mkFailed (JStr "gone.pdf") "File not found: gone.pdf"]
                           None)), w')).
  { eexists. vm_compute. reflexivity. }
  destruct Hrun as (w' & Hrun).
  destruct (success_flag (page_browser create_only) ascii_lower scalar_repr "Notes"
              (JArr two_requests) true signed_in w' _ eq_refl Hrun)
    as (r & results & x & w2 & Hr & T & Hiff & _).
  injection Hr as <-. eexists. rewrite Hrun. split; [reflexivity|].
  repeat split; reflexivity.
Defined.

Example creation_fails :
  fst (upload_sources (page_browser blank_page) ascii_lower scalar_repr "Notes"
         (JArr two_requests) true signed_in) =
  Ok (Reply (mkResults false "Notes" [] [] (Some "Could not create notebook"))).
Proof. vm_compute. reflexivity. Qed.

Example existing_notebook_is_opened :
  exists rest,
    trace (snd (upload_sources (page_browser studio) ascii_lower scalar_repr "my notes"
                  (JArr []) true signed_in)) =
    [Ev PlaywrightStart (inr tt); Ev (Launch true) (inr tt);
     Ev (NewContext STATE_PATH) (inr tt); Ev NewPage (inr tt);
     Ev (Goto NOTEBOOKLM_URL) (inr tt);
     Ev (WaitForLoadState "networkidle") (inr tt); Slept 2000;
     Ev (WaitForSelector NOTEBOOK_CARD 10000) (inr tt);
     Ev (QuerySelectorAll NOTEBOOK_CARD) (inr [1; 2; 3]);
     Ev (QuerySelector (Some 1) NOTEBOOK_TITLE) (inr (Some 11));
     Ev (InnerText 11) (inr "Plans");
     Ev (QuerySelector (Some 2) NOTEBOOK_TITLE) (inr (Some 12));
     Ev (InnerText 12) (inr "My Notes");
     Ev (QuerySelector (Some 3) NOTEBOOK_TITLE) (inr None);
     Ev (Click 2) (inr tt)] ++ rest.
Proof. eexists. vm_compute. reflexivity. Qed.

Lemma unauthenticated_refused_witness :
  upload_sources (page_browser blank_page) ascii_lower scalar_repr "Notes"
      (JArr [website_request "https://example.org"]) true (fresh Absent) =
    (Ok (ErrorReply "Not authenticated. Run authentication first."), fresh Absent) /\
  list_notebooks (page_browser blank_page) true (fresh Absent) =
    (Ok (ErrorReply "Not authenticated. Run authentication first."), fresh Absent).
Proof.
  apply (unauthenticated_refused (page_browser blank_page) ascii_lower scalar_repr).
  reflexivity.
Defined.

Lemma missing_file_fails_first_witness :
  add_file_source (page_browser blank_page) scalar_repr (JStr "gone.pdf") signed_in =
    (Ok (failure "File not found: gone.pdf"), signed_in).
Proof.
  apply (missing_file_fails_first (page_browser blank_page) scalar_repr
           (JStr "gone.pdf") signed_in).
  reflexivity.
Defined.


End UploadSpec.

(** ** More on the upload script *)

Module UploadMore.

Import Upload PyFacts UploadSpec.

Section Runs.

Variable B : browser.
Variable lower : string -> string.


End Runs.


Lemma ends_with_one {A} (l before : list A) (a : A) :
  rev l = a :: before -> l = rev before ++ [a].
Proof. intros H. rewrite <- (rev_involutive l), H. reflexivity. Qed.


Section CreateNotebook.

Variable B : browser.


End CreateNotebook.

Section GetNotebooks.

Variable B : browser.

(** [get_notebooks] stops at the first call that raises: it swallows the
    exception when it is a timeout and raises it otherwise. *)
Lemma get_notebooks_stops (w : world) :
  exists r ext,
    get_notebooks B w = (r, logs ext w) /\
    match r with
    | Raised e =>
        is_timeout e = false /\
        exists pre c, ext = pre ++ [Ev c (inl e)] /\ existsb raising pre = false
    | Ok _ =>
        existsb raising ext = false \/
        exists pre c e,
          ext = pre ++ [Ev c (inl e)] /\ is_timeout e = true /\
          existsb raising pre = false
    end.
Proof.
  destruct (get_notebooks_run B w)
    as (r & ext & notebooks & E & _ & [(R & -> & _) | (e & pre & c & -> & R & -> & _)]).
  - exists (Ok notebooks), ext. split; [exact E|]. now left.
  - destruct (is_timeout e) eqn:T; eexists _, _; (split; [exact E|]).
    + right. now exists pre, c, e.
    + split; [exact T|]. now exists pre, c.
Qed.

(** X2. [get_notebooks] stops at the first call that raises, which is
    then the last call it makes. When that exception is a Playwright
    timeout -- on the wait, on the listing of the cards or while reading
    a card's title -- it is swallowed and the entries collected so far
    are returned: none when the wait or the listing timed out, and
    otherwise the entries of the cards read before the one whose reading
    timed out, in order and with their titles. Any other exception is
    raised to the caller. So [get_notebooks] never raises a timeout, and
    a list it returns may stop short of the cards. *)
Theorem get_notebooks_exceptions (w : world) :
  exists r ext,
    get_notebooks B w = (r, logs ext w) /\
    match r with
    | Raised e =>
        is_timeout e = false /\
        exists pre c, ext = pre ++ [Ev c (inl e)] /\ existsb raising pre = false
    | Ok notebooks =>
        Forall (titled ext) notebooks /\
        ((existsb raising ext = false /\
          exists cards rest,
            ext = Ev (WaitForSelector NOTEBOOK_CARD 10000) (inr tt)
                  :: Ev (QuerySelectorAll NOTEBOOK_CARD) (inr cards) :: rest /\
            map element notebooks = cards) \/
         (exists pre c e,
            ext = pre ++ [Ev c (inl e)] /\ is_timeout e = true /\
            existsb raising pre = false /\
            ((pre = [] /\ c = WaitForSelector NOTEBOOK_CARD 10000 /\
              notebooks = []) \/
             (pre = [Ev (WaitForSelector NOTEBOOK_CARD 10000) (inr tt)] /\
              c = QuerySelectorAll NOTEBOOK_CARD /\ notebooks = []) \/
             (exists cards rest,
                ext = Ev (WaitForSelector NOTEBOOK_CARD 10000) (inr tt)
                      :: Ev (QuerySelectorAll NOTEBOOK_CARD) (inr cards) :: rest /\
                map element notebooks = firstn (length notebooks) cards /\
                length notebooks < length cards /\
                length (filter title_lookup rest) = S (length notebooks)))))
    end.
Proof.
  destruct (get_notebooks_run B w)
    as (r & ext & notebooks & E & F & [(R & -> & cards & rest & X & C & _)
                                      | (e & pre & c & -> & R & -> & X)]).
  - exists (Ok notebooks), ext. split; [exact E|]. split; [exact F|].
    left. split; [exact R|]. now exists cards, rest.
  - destruct (is_timeout e) eqn:T; eexists _, _; (split; [exact E|]).
    + split; [exact F|]. right. exists pre, c, e. auto.
    + split; [exact T|]. now exists pre, c.
Qed.

End GetNotebooks.

Example get_notebooks_cut_short :
  fst (get_notebooks (page_browser stalling_page) signed_in) =
  Ok [mkNotebook "Plans" 1].
Proof. vm_compute. reflexivity. Qed.

Section ListNotebooks.

Variable B : browser.

Lemma bind_ok {A C} (m : M A) (k : A -> M C) (w w1 : world) (a : A) :
  m w = (Ok a, w1) -> bind m k w = k a w1.
Proof. intros H. unfold bind. now rewrite H. Qed.

Lemma bind_raised {A C} (m : M A) (k : A -> M C) (w w1 : world) (e : exn) :
  m w = (Raised e, w1) -> bind m k w = (Raised e, w1).
Proof. intros H. unfold bind. now rewrite H. Qed.

Lemma collect_cards_looks (cards : list handle) (acc : list notebook) :
  emits (fun e => looks e = true) (collect_cards B cards acc).
Proof.
  revert acc. induction cards as [|card cards IH]; intros acc; cbn [collect_cards].
  - apply emits_leave.
  - apply emits_step; [|intros t; apply IH].
    unfold card_title. emits_go; reflexivity.
Qed.

(** [get_notebooks] only looks at the page. *)
Lemma get_notebooks_looks : emits (fun e => looks e = true) (get_notebooks B).
Proof.
  intros w. unfold get_notebooks.
  match goal with
  | |- context [step ?m ?s ?k w] =>
      assert (H : emits (fun e => looks e = true) (step m s k));
      [|destruct (H w) as (ext & E & F); destruct (step m s k w) as [[nbs x] w1]]
  end.
  - apply emits_step; [apply emits_invoke; reflexivity|].
    intros _. apply emits_step; [apply emits_invoke; reflexivity|].
    intros cards. apply collect_cards_looks.
  - cbn in E. exists ext. split; [|exact F].
    destruct x as [| |e]; try exact E. now destruct (is_timeout e).
Qed.

(** X4. [list_notebooks] is read-only. In every run, whether it returns or
    raises, it never clicks, types or uploads anything, never calls
    [storage_state], and leaves the state file and the local files as
    they were. *)
Theorem list_notebooks_read_only (headless : bool) (w : world) :
  exists ext,
    snd (list_notebooks B headless w) = logs ext w /\
    Forall (fun e => acts_on_page e = false /\ storage_call e = false) ext.
Proof.
  unfold list_notebooks. destruct (file_exists (state_file w)); cbn [negb].
  - revert w.
    change (emits (fun e => acts_on_page e = false /\ storage_call e = false)
              (with_playwright B
                 (invoke B (Launch headless);;
                  invoke B (NewContext STATE_PATH);;
                  invoke B NewPage;;
                  finally
                    (try_except
                       (invoke B (Goto NOTEBOOKLM_URL);;
                        invoke B (WaitForLoadState "networkidle");;
                        sleep 3000;;
                        notebooks <- get_notebooks B;;
                        pure (Reply (mkListing true (map title notebooks)
                                       (length (map title notebooks)))))
                       (fun e => pure (ErrorReply (exn_text e))))
                    (invoke B Close;; pure tt)))).
    unfold with_playwright. emits_go; try (split; reflexivity).
    apply emits_weaken with (P := fun e => looks e = true);
      [|apply get_notebooks_looks].
    intros [c r| |]; try discriminate; destruct c; try discriminate; now split.
  - exists []. now rewrite logs_nil.
Qed.

(** X3. A run of [list_notebooks] that returns, the state file being
    there, answers either a listing with [success] true, the titles of the
    notebooks [get_notebooks] returned and [count] their number, or the
    error dict with the text of an exception that was raised. The error
    dict comes from the navigation ([goto], [wait_for_load_state]) or from
    an exception of [get_notebooks] that is not a timeout: a timeout while
    the notebooks are read is reported as a successful, possibly shorter,
    listing. *)
Theorem list_notebooks_reply (headless : bool) (w w' : world) (rp : reply list_result) :
  file_exists (state_file w) = true ->
  list_notebooks B headless w = (Ok rp, w') ->
  exists ext,
    w' = logs ext w /\
    match rp with
    | Reply l =>
        lr_success l = true /\ lr_count l = length (lr_notebooks l) /\
        exists w0 w1 notebooks,
          get_notebooks B w0 = (Ok notebooks, w1) /\
          lr_notebooks l = map title notebooks
    | ErrorReply text =>
        exists c e,
          In (Ev c (inl e)) ext /\ text = exn_text e /\
          (is_timeout e = false \/ c = Goto NOTEBOOKLM_URL \/
           c = WaitForLoadState "networkidle")
    end.
Proof.
  intros Hf. unfold list_notebooks. rewrite Hf. cbn [negb].
  unfold with_playwright, finally, try_except.
  run B; try discriminate.
  - intros [= <- <-]. eexists. split; [reflexivity|].
    exists (Goto NOTEBOOKLM_URL), e. split; [|split; [reflexivity | auto]].
    find_event.
  - intros [= <- <-]. eexists. split; [reflexivity|].
    exists (WaitForLoadState "networkidle"), e. split; [|split; [reflexivity | auto]].
    find_event.
  - match goal with
    | |- context [@bind ?A ?C (get_notebooks B) ?k ?w0] =>
        destruct (get_notebooks_stops B w0) as ([notebooks|e] & ext & E & X);
        [ rewrite (bind_ok (get_notebooks B) k w0 _ notebooks E)
        | rewrite (bind_raised (get_notebooks B) k w0 _ e E) ]
    end.
    + run B; try discriminate. intros [= <- <-].
      rewrite ?logs_logs. eexists. split; [reflexivity|].
      split; [reflexivity|]. split; [reflexivity|]. eauto.
    + destruct X as (T & pre & c & -> & _).
      run B; try discriminate. intros [= <- <-].
      rewrite ?logs_logs. eexists. split; [reflexivity|].
      exists c, e. split; [|split; [reflexivity | auto]].
      find_event.
Qed.

End ListNotebooks.

Section UploadRuns.

Variable B : browser.
Variable lower : string -> string.
Variable repr : json -> string.

Lemma page_events_no_storage (l : list event) :
  Forall (fun e => session_call e = false) l -> existsb storage_call l = false.
Proof.
  induction 1 as [|e l He _ IH]; [reflexivity|]. cbn. rewrite IH, orb_false_r.
  destruct e as [c r| |]; try reflexivity. destruct c; try reflexivity; discriminate.
Qed.

Lemma no_storage_no_saved (l : list event) :
  existsb storage_call l = false -> existsb saved l = false.
Proof.
  induction l as [|e l IH]; [reflexivity|]. cbn. intros H.
  apply orb_false_iff in H. destruct H as [H1 H2]. rewrite (IH H2), orb_false_r.
  destruct e as [c r| |]; try reflexivity. destruct c; try reflexivity; discriminate.
Qed.

Ltac raised_here := split; [reflexivity | split; [find_event | reflexivity]].

(** X5. In every run of [upload_sources], returning or raising,
    [browser.close()] is called only right after [context.storage_state]
    has returned, and the state file is rewritten only by that call:
    when [storage_state] has not returned the file is as it was, and when
    it has, that was the only call of [storage_state] in the run and the
    file holds the state it returned. So when the session cannot be
    opened after the launch, or when saving the state raises, the script
    never closes the browser it launched. *)
Theorem close_only_after_save
  (notebook_name : string) (sources : json) (headless : bool) (w : world) :
  exists ext,
    trace (snd (upload_sources B lower repr notebook_name sources headless w)) =
      trace w ++ ext /\
    (existsb close_call ext = true ->
       exists before j closing after,
         ext = before ++ Ev (StorageState STATE_PATH) (inr j)
                         :: Ev Close closing :: after /\
         existsb close_call before = false /\
         existsb close_call after = false) /\
    (existsb saved ext = false ->
       state_file (snd (upload_sources B lower repr notebook_name sources headless w)) =
       state_file w) /\
    (existsb saved ext = true ->
       exists before j after,
         ext = before ++ Ev (StorageState STATE_PATH) (inr j) :: after /\
         existsb storage_call before = false /\
         existsb storage_call after = false /\
         state_file (snd (upload_sources B lower repr notebook_name sources headless w)) =
         Present (inr j)).
Proof.
  destruct (file_exists (state_file w)) eqn:Hf.
  2: { unfold upload_sources. rewrite Hf. exists []. cbn. rewrite app_nil_r.
       repeat split; auto; discriminate. }
  destruct (upload_sources_cleanup B lower repr notebook_name sources headless w Hf)
    as (ext & T & _ & Hno & Hyes).
  exists ext. split; [exact T|].
  destruct (existsb page_opened ext) eqn:O.
  - destruct (Hyes eq_refl) as (results & x & block & saving & tail & _ & F & -> & M).
    pose proof (page_events_no_close _ F) as Hc.
    pose proof (page_events_no_storage _ F) as Hs.
    pose proof (no_storage_no_saved _ Hs) as Hv.
    destruct saving as [e|j].
    + destruct M as (S & stopping & ->).
      rewrite !existsb_app, Hc, Hv. cbn.
      split; [discriminate|]. split; [intros _; exact S | discriminate].
    + destruct M as (S & closing & stopping & -> & _).
      split; [|split].
      * intros _.
        exists ([Ev PlaywrightStart (inr tt); Ev (Launch headless) (inr tt);
                 Ev (NewContext STATE_PATH) (inr tt); Ev NewPage (inr tt)] ++ block),
               j, closing, [Ev PlaywrightStop stopping].
        rewrite <- app_assoc. split; [reflexivity|].
        rewrite existsb_app, Hc. split; reflexivity.
      * rewrite !existsb_app, Hv. cbn. discriminate.
      * intros _.
        exists ([Ev PlaywrightStart (inr tt); Ev (Launch headless) (inr tt);
                 Ev (NewContext STATE_PATH) (inr tt); Ev NewPage (inr tt)] ++ block),
               j, [Ev Close closing; Ev PlaywrightStop stopping].
        rewrite <- app_assoc. split; [reflexivity|].
        rewrite existsb_app, Hs. repeat split; try reflexivity. exact S.
  - destruct (Hno eq_refl) as (Hs & Hc & S). rewrite Hc, (no_storage_no_saved _ Hs).
    split; [discriminate|]. split; [intros _; exact S | discriminate].
Qed.

(** An exception that escapes [upload_sources] was raised by one of the
    calls that open or close the session. *)
Lemma upload_sources_raised
  (notebook_name : string) (sources : json) (headless : bool)
  (w w' : world) (e : exn) :
  upload_sources B lower repr notebook_name sources headless w = (Raised e, w') ->
  exists ext c,
    trace w' = trace w ++ ext /\
    In (Ev c (inl e)) ext /\
    session_call (Ev c (inl e)) = true.
Proof.
  unfold upload_sources. destruct (file_exists (state_file w)); cbn [negb];
    [|discriminate].
  unfold with_playwright, finally.
  run B;
  try match goal with
      | |- context [upload_try ?b ?l ?p ?n ?s ?r ?w0] =>
          destruct (upload_try_page_events b l p n s r w0) as (ext & E & F);
          destruct (upload_try b l p n s r w0) as [[results x] w2];
          cbn in E; subst w2
      end;
  run B; try discriminate.
  all: intros [= <- <-].
  all: cbn [snd trace logs write_state state_file]; rewrite <- ?app_assoc; cbn [app];
    eexists.
  all: first [ exists PlaywrightStop; raised_here
             | exists PlaywrightStart; raised_here
             | exists (Launch headless); raised_here
             | exists (NewContext STATE_PATH); raised_here
             | exists NewPage; raised_here
             | exists (StorageState STATE_PATH); raised_here
             | exists Close; raised_here ].
Qed.

(** X6. An exception that escapes [upload_sources] was raised by one of
    the calls that open or close the session -- starting or stopping
    Playwright, the launch, the context, the page, saving the state,
    closing the browser -- never by the navigation, the notebook lookup or
    a source. Conversely, when none of those session calls raises the
    run returns a reply; and when an exception has left the guarded block
    it was caught there: the reply is the result so far with [success]
    False and [str(e)] as its [error]. *)
Theorem upload_sources_raises
  (notebook_name : string) (sources : json) (headless : bool) (w : world) :
  exists ext,
    trace (snd (upload_sources B lower repr notebook_name sources headless w)) =
      trace w ++ ext /\
    (forall e,
       fst (upload_sources B lower repr notebook_name sources headless w) = Raised e ->
       exists c, In (Ev c (inl e)) ext /\ session_call (Ev c (inl e)) = true) /\
    (existsb session_failure ext = false ->
       exists rp,
         fst (upload_sources B lower repr notebook_name sources headless w) = Ok rp) /\
    (forall results e w2,
       existsb page_opened ext = true ->
       existsb session_failure ext = false ->
       upload_try B lower repr notebook_name sources
         (mkResults true notebook_name [] [] None)
         (logs [Ev PlaywrightStart (inr tt); Ev (Launch headless) (inr tt);
                Ev (NewContext STATE_PATH) (inr tt); Ev NewPage (inr tt)] w) =
         ((results, Threw e), w2) ->
       fst (upload_sources B lower repr notebook_name sources headless w) =
       Ok (Reply (mark_failed results (exn_text e)))).
Proof.
  destruct (file_exists (state_file w)) eqn:Hf.
  2: { unfold upload_sources. rewrite Hf. exists []. cbn. rewrite app_nil_r.
       split; [reflexivity|]. split; [discriminate|].
       split; [eauto | discriminate]. }
  destruct (upload_sources_cleanup B lower repr notebook_name sources headless w Hf)
    as (ext & T & Hret & _ & Hyes).
  exists ext. split; [exact T|]. split; [|split].
  - intros e He.
    destruct (upload_sources B lower repr notebook_name sources headless w)
      as [r w'] eqn:R.
    cbn [fst snd] in He, T. subst r.
    destruct (upload_sources_raised _ _ _ _ _ _ R) as (ext' & c & T' & I & S).
    rewrite T in T'. apply app_inv_head in T'. subst ext'. now exists c.
  - apply Hret.
  - intros results e w2 O Hs Htry.
    destruct (Hyes O) as (results' & x & block & saving & tail & E & _ & -> & M).
    rewrite Htry in E. injection E as <- <- _.
    destruct saving as [e'|j].
    + rewrite !existsb_app in Hs. cbn in Hs. rewrite !orb_true_r in Hs. discriminate.
    + destruct M as (_ & closing & stopping & _ & R). exact (R Hs).
Qed.

(** The lists of a result after a batch: the values of the requests that
    succeeded, and one entry for each request that failed, both in the
    order of the requests. *)
Lemma record_all_partition (done : list (json * add_result)) (results : upload_result) :
  record_all results done =
  mkResults (ur_success results) (ur_notebook results)
    (ur_uploaded results ++
       map fst (filter (fun d => ar_success (snd d)) done))
    (ur_failed results ++
       map (fun d => mkFailed (fst d)
                       (match ar_error (snd d) with
                        | Some e => e
                        | None => "Unknown error"
                        end))
           (filter (fun d => negb (ar_success (snd d))) done))
    (ur_error results).
Proof.
  unfold record_all. revert results.
  induction done as [|[v r] done IH]; intros results.
  - cbn. rewrite !app_nil_r. now destruct results.
  - cbn [fold_left fst snd filter]. rewrite IH. unfold record_outcome.
    destruct (ar_success r); cbn; now rewrite <- app_assoc.
Qed.

Lemma outcomes_carry_errors (sources : list source) (w : world) :
  Forall (fun d => ar_success (snd d) = false -> ar_error (snd d) <> None)
         (outcomes B repr sources w).
Proof.
  pose proof (outcomes_failures B repr sources w) as F. revert F.
  apply Forall_impl. intros d H Hr. destruct (H Hr) as (text & -> & _). discriminate.
Qed.

Lemma filter_split_length {X} (f : X -> bool) (l : list X) :
  length (filter f l) + length (filter (fun x => negb (f x)) l) = length l.
Proof.
  induction l as [|x l IH]; [reflexivity|]. cbn. destruct (f x); cbn; lia.
Qed.

(** Every outcome belongs to a request of the batch, whose value it
    carries. *)
Lemma outcome_values (sources : list source) (w : world) (d : json * add_result) :
  In d (outcomes B repr sources w) ->
  exists s, In s sources /\ source_value s = inr (fst d).
Proof.
  intros Hin.
  destruct (add_sources_run B repr sources (mkResults true "" [] [] None) w)
    as (_ & _ & _ & _ & V & _).
  apply (in_map (fun d => @inr exn json (fst d))) in Hin. rewrite <- V in Hin.
  apply in_map_iff in Hin. destruct Hin as (s & Hs & Hin).
  exists s. split; [|exact Hs].
  rewrite <- (firstn_skipn (length (outcomes B repr sources w)) sources).
  apply in_or_app. now left.
Qed.

(** What the two lists of a result hold after a batch that started with
    both empty. *)
Lemma record_all_lists (sources : list source) (w : world) (notebook_name : string) :
  let r := record_all (mkResults true notebook_name [] [] None)
                      (outcomes B repr sources w) in
  length (ur_uploaded r) + length (ur_failed r) = length (outcomes B repr sources w) /\
  (forall v, In v (ur_uploaded r ++ map f_value (ur_failed r)) ->
     exists s, In s sources /\ source_value s = inr v).
Proof.
  cbv zeta. rewrite record_all_partition. cbn [ur_uploaded ur_failed app].
  split.
  - rewrite !length_map. apply filter_split_length.
  - intros v Hv. apply in_app_or in Hv. rewrite map_map in Hv. cbn [f_value] in Hv.
    assert (Hd : exists d, In d (outcomes B repr sources w) /\ fst d = v).
    { destruct Hv as [Hv|Hv]; apply in_map_iff in Hv; destruct Hv as (d & <- & Hin);
        apply filter_In in Hin; exists d; tauto. }
    destruct Hd as (d & Hin & <-). now apply outcome_values with (w := w).
Qed.

(** X8. The loop over the sources, for any batch and any mix of successes
    and failures. It handles the requests in order for as long as they
    are dicts, obtaining from [dispatch] one outcome for each with the
    request's value, and is left by the exception of [source.get] at the
    first request that is not a dict; when every request is a dict it
    runs to its end with one outcome per request. It appends to
    [uploaded] the values of the requests handled whose add operation
    succeeded and to [failed] one entry per request handled whose add
    operation failed, each list in the order of the requests, so that
    every request handled lands in exactly one of the two. A failed
    outcome always carries its own error: the default "Unknown error" of
    [result.get] is never what is recorded for want of an error. Nothing
    else of [results] changes. *)
Theorem add_sources_partition
  (sources : list source) (results : upload_result) (w : world) :
  exists results' x ext,
    let done := outcomes B repr sources w in
    add_sources B repr sources results w = ((results', x), logs ext w) /\
    map source_value (firstn (length done) sources) =
      map (fun d => inr (fst d)) done /\
    Forall (fun s => is_dict s = true) (firstn (length done) sources) /\
    (forall i d, nth_error done i = Some d ->
       exists s w0 ext0,
         nth_error sources i = Some s /\
         dispatch B repr s w0 = (Ok d, logs ext0 w0)) /\
    ((x = Fell /\ length done = length sources) \/
     (exists s,
        nth_error sources (length done) = Some s /\ is_dict s = false /\
        x = Threw (AttributeError s "get"))) /\
    (Forall (fun s => is_dict s = true) sources -> x = Fell) /\
    ur_uploaded results' =
      ur_uploaded results ++ map fst (filter (fun d => ar_success (snd d)) done) /\
    ur_failed results' =
      ur_failed results ++
      map (fun d => mkFailed (fst d)
                      (match ar_error (snd d) with
                       | Some e => e
                       | None => "Unknown error"
                       end))
          (filter (fun d => negb (ar_success (snd d))) done) /\
    Forall (fun d => ar_success (snd d) = false -> ar_error (snd d) <> None) done /\
    length (ur_uploaded results') + length (ur_failed results') =
      length (ur_uploaded results) + length (ur_failed results) + length done /\
    ur_success results' = ur_success results /\
    ur_error results' = ur_error results /\
    ur_notebook results' = ur_notebook results.
Proof.
  destruct (add_sources_run B repr sources results w) as (ext & x & E & F & V & X).
  eexists _, x, ext. cbv zeta. split; [exact E|].
  split; [exact V|]. split; [exact F|].
  split.
  { intros i d Hd. destruct (outcomes_nth B repr sources w i d Hd)
      as (s & w0 & ext0 & N & _ & D). now exists s, w0, ext0. }
  split; [exact X|].
  split.
  { intros Hd. destruct X as [[-> _] | (s & N & D & _)]; [reflexivity|].
    rewrite Forall_forall in Hd. rewrite (Hd s (nth_error_In _ _ N)) in D.
    discriminate. }
  rewrite record_all_partition. cbn.
  split; [reflexivity|]. split; [reflexivity|].
  split; [apply outcomes_carry_errors|].
  split; [|auto].
  rewrite !length_app, !length_map.
  pose proof (filter_split_length (fun d : json * add_result => ar_success (snd d))
                (outcomes B repr sources w)) as L.
  lia.
Qed.

(** X7. What a reply of [upload_sources] can look like, the state file
    being there. It names the notebook asked for, and [uploaded] and
    [failed] hold values of requests of the batch only. When [success] is
    [True] there is no [error], the sources are a sequence of dicts and
    every request is accounted for: [uploaded] and [failed] together have
    one entry per request. When [success] is [False] there is an [error],
    and either both lists are empty, or the loop over the sources was
    left at a request that is not a dict: the error is that of
    [source.get] on it, and the lists account for the requests before
    it, which are all dicts. *)
Theorem upload_reply_shape
  (notebook_name : string) (sources : json) (headless : bool)
  (w w' : world) (rp : reply upload_result) :
  file_exists (state_file w) = true ->
  upload_sources B lower repr notebook_name sources headless w = (Ok rp, w') ->
  exists r,
    rp = Reply r /\
    ur_notebook r = notebook_name /\
    (forall v, In v (ur_uploaded r ++ map f_value (ur_failed r)) ->
       exists items s,
         py_iter sources = inr items /\ In s items /\ source_value s = inr v) /\
    (ur_success r = true ->
       ur_error r = None /\
       exists items,
         py_iter sources = inr items /\
         Forall (fun s => is_dict s = true) items /\
         length (ur_uploaded r) + length (ur_failed r) = length items) /\
    (ur_success r = false ->
       ur_error r <> None /\
       ((ur_uploaded r = [] /\ ur_failed r = []) \/
        (exists items s,
           py_iter sources = inr items /\
           nth_error items (length (ur_uploaded r) + length (ur_failed r)) = Some s /\
           is_dict s = false /\
           ur_error r = Some (exn_text (AttributeError s "get")) /\
           Forall (fun s => is_dict s = true)
                  (firstn (length (ur_uploaded r) + length (ur_failed r)) items)))).
Proof.
  intros Hf Hrun.
  destruct (upload_sources_run B lower repr _ _ _ _ _ _ Hf Hrun)
    as (results & x & w2 & j & T & -> & _).
  pose proof (upload_try_exits B lower repr _ _ _ _ _ _ _ T) as X.
  eexists. split; [reflexivity|].
  destruct x as [| |e].
  - destruct X as (items & w0 & I & -> & L).
    destruct (record_all_lists items w0 notebook_name) as (Hl & Hv).
    destruct (record_all_keeps (outcomes B repr items w0)
                (mkResults true notebook_name [] [] None)) as (H1 & H2 & H3).
    destruct (add_sources_run B repr items (mkResults true notebook_name [] [] None) w0)
      as (_ & _ & _ & F & _).
    rewrite L, firstn_all in F.
    split; [exact H3|]. split; [|split].
    + intros v Hin. destruct (Hv v Hin) as (s & Hs & Hsv). now exists items, s.
    + intros _. split; [exact H2|]. exists items. rewrite Hl. auto.
    + rewrite H1. discriminate.
  - destruct X as (-> & _). cbn. split; [reflexivity|]. split; [|split].
    + intros v [].
    + discriminate.
    + intros _. split; [discriminate | now left].
  - destruct X as [-> | (items & w0 & s & I & -> & N & D & ->)].
    + cbn. split; [reflexivity|]. split; [|split].
      * intros v [].
      * discriminate.
      * intros _. split; [discriminate | now left].
    + destruct (record_all_lists items w0 notebook_name) as (Hl & Hv).
      destruct (record_all_keeps (outcomes B repr items w0)
                  (mkResults true notebook_name [] [] None)) as (_ & _ & H3).
      destruct (add_sources_run B repr items (mkResults true notebook_name [] [] None) w0)
        as (_ & _ & _ & F & _).
      cbn [mark_failed ur_notebook ur_uploaded ur_failed ur_success ur_error].
      split; [exact H3|]. split; [|split].
      * intros v Hin. destruct (Hv v Hin) as (s' & Hs & Hsv). now exists items, s'.
      * discriminate.
      * intros _. split; [discriminate|]. right. exists items, s. rewrite Hl. auto.
Qed.

Lemma slept_ms_app (a b : list event) :
  slept_ms (a ++ b) = (slept_ms a + slept_ms b)%N.
Proof.
  induction a as [|e a IH]; [reflexivity|].
  cbn [app slept_ms fold_right]. fold (slept_ms (a ++ b)). fold (slept_ms a).
  rewrite IH. destruct e; lia.
Qed.

Ltac close_pause :=
  unfold pure; eexists _, _;
  (split; [first [ reflexivity
                 | apply (f_equal2 pair); [reflexivity | symmetry; apply logs_nil] ]|]);
  split; [apply N.leb_le; vm_compute; reflexivity|];
  intros; first [ discriminate | split; apply N.leb_le; vm_compute; reflexivity ].

(** The pauses of one add operation: none when it is refused at once, and
    up to 1 + 0.5 + 5 seconds for a file that is uploaded. *)
Lemma add_website_source_pauses (url : json) (w : world) :
  exists r ext,
    add_website_source B url w = (Ok r, logs ext w) /\
    (slept_ms ext <= 6500)%N /\
    (ar_success r = true -> (4500 <= slept_ms ext)%N /\ (slept_ms ext <= 6500)%N).
Proof. unfold add_website_source, try_except, query_either. run B; close_pause. Qed.

Lemma add_file_source_pauses (file_path : json) (w : world) :
  exists r ext,
    add_file_source B repr file_path w = (Ok r, logs ext w) /\
    (slept_ms ext <= 6500)%N /\
    (ar_success r = true -> (4500 <= slept_ms ext)%N /\ (slept_ms ext <= 6500)%N).
Proof. unfold add_file_source, try_except, query_either. run B; close_pause. Qed.

Lemma dispatch_pauses (fields : list (string * json)) (w : world) :
  exists r ext,
    dispatch B repr (JObj fields) w =
      (Ok (dict_get fields "value" (JStr ""), r), logs ext w) /\
    (slept_ms ext <= 6500)%N /\
    (ar_success r = true -> (4500 <= slept_ms ext)%N /\ (slept_ms ext <= 6500)%N).
Proof.
  unfold dispatch, source_type, source_value, py_get. rewrite !bind_lift.
  set (type := dict_get fields "type" (JStr "website")).
  set (value := dict_get fields "value" (JStr "")).
  destruct (is_str "website" type); [|destruct (is_str "file" type)].
  - destruct (add_website_source_pauses value w) as (r & ext & E & H).
    exists r, ext. unfold bind at 1. rewrite E. now split.
  - destruct (add_file_source_pauses value w) as (r & ext & E & H).
    exists r, ext. unfold bind at 1. rewrite E. now split.
  - eexists _, []. rewrite logs_nil. split; [reflexivity|].
    split; [apply N.leb_le; reflexivity | discriminate].
Qed.

(** X9. The pace of the loop over the sources: it sleeps one second after
    every request it handles, whatever the outcome, on top of the pauses
    of the add operation itself, which are at most 6.5 seconds. Having
    handled k requests it has therefore slept at least k seconds and at
    most 7.5 k seconds in all; k is the number of requests of the batch
    when they are all dicts, and the loop then runs to its end. *)
Theorem add_sources_pace (sources : list source) (results : upload_result) (w : world) :
  exists results' x ext,
    add_sources B repr sources results w = ((results', x), logs ext w) /\
    (1000 * N.of_nat (length (outcomes B repr sources w)) <= slept_ms ext)%N /\
    (slept_ms ext <= 7500 * N.of_nat (length (outcomes B repr sources w)))%N /\
    (Forall (fun s => is_dict s = true) sources ->
       x = Fell /\ length (outcomes B repr sources w) = length sources).
Proof.
  revert results w. induction sources as [|s rest IH]; intros results w.
  - exists results, Fell, []. rewrite logs_nil. cbn. repeat split; lia.
  - cbn [add_sources outcomes]. unfold step at 1.
    pose proof (dispatch_run B repr s w) as D.
    destruct s as [| | | | | |fields]; cbv beta iota in D;
      try (rewrite D; eexists results, _, [];
           rewrite logs_nil; cbn [length slept_ms fold_right N.of_nat];
           (split; [reflexivity|]); (split; [lia|]); (split; [lia|]);
           intros Hd; inversion Hd; discriminate).
    clear D.
    destruct (dispatch_pauses fields w) as (r & ext1 & E & Hr & _). rewrite E.
    unfold step at 1. rewrite sleep_logs, logs_logs. unfold log. rewrite logs_logs.
    cbv zeta. cbn [fst snd].
    destruct (IH (record_outcome results (dict_get fields "value" (JStr "")) r)
                 (logs (ext1 ++ [Slept 1000]) w))
      as (results' & x & ext2 & E2 & Lo & Hi & Hd).
    exists results', x, ((ext1 ++ [Slept 1000]) ++ ext2).
    rewrite E2, logs_logs. split; [reflexivity|].
    rewrite !slept_ms_app. change (slept_ms [Slept 1000]) with 1000%N.
    cbn [length]. split; [lia|]. split; [lia|].
    intros Hall. inversion Hall as [|? ? _ Hrest]; subst.
    destruct (Hd Hrest) as (-> & L). now rewrite L.
Qed.

(** With the state file there, both entry points go to the browser: the
    first thing they do is to start Playwright. *)
Lemma entry_points_start (notebook_name : string) (sources : json)
  (headless : bool) (w : world) :
  file_exists (state_file w) = true ->
  (exists rest,
     trace (snd (upload_sources B lower repr notebook_name sources headless w)) =
     trace w ++ Ev PlaywrightStart (B (trace w) PlaywrightStart) :: rest) /\
  (exists rest,
     trace (snd (list_notebooks B headless w)) =
     trace w ++ Ev PlaywrightStart (B (trace w) PlaywrightStart) :: rest).
Proof.
  intros Hf. split.
  - unfold upload_sources. rewrite Hf. cbn [negb].
    unfold with_playwright, finally.
    run B;
    try match goal with
        | |- context [upload_try ?b ?l ?p ?n ?s ?r ?w0] =>
            destruct (upload_try_page_events b l p n s r w0) as (ext & E & F);
            destruct (upload_try b l p n s r w0) as [[results x] w2];
            cbn in E; subst w2
        end;
    run B.
    all: cbn [snd trace logs write_state state_file]; rewrite <- ?app_assoc; cbn [app];
      eexists; reflexivity.
  - unfold list_notebooks. rewrite Hf. cbn [negb].
    unfold with_playwright, finally, try_except.
    run B;
    try match goal with
        | |- context [@bind ?A ?C (get_notebooks B) ?k ?w0] =>
            destruct (get_notebooks_stops B w0) as ([notebooks|e'] & ext & E & _);
            [ rewrite (bind_ok (get_notebooks B) k w0 _ notebooks E)
            | rewrite (bind_raised (get_notebooks B) k w0 _ e' E) ]
        end;
    run B.
    all: cbn [snd trace logs write_state state_file]; rewrite <- ?app_assoc; cbn [app];
      eexists; reflexivity.
Qed.

End UploadRuns.

(** The listing of the three notebooks of [studio]. *)
Lemma list_notebooks_reply_witness :
  exists ext,
    snd (list_notebooks (page_browser studio) true signed_in) = logs ext signed_in /\
    exists w0 w1 notebooks,
      get_notebooks (page_browser studio) w0 = (Ok notebooks, w1) /\
      ["Plans"; "My Notes"; "Untitled"] = map title notebooks.
Proof.
  assert (Hrun : exists w',
             list_notebooks (page_browser studio) true signed_in =
             (Ok (Reply (mkListing true ["Plans"; "My Notes"; "Untitled"] 3)), w')).
  { eexists. vm_compute. reflexivity. }
  destruct Hrun as (w' & Hrun).
  destruct (list_notebooks_reply (page_browser studio) true signed_in w' _ eq_refl Hrun)
    as (ext & E & _ & _ & H).
  exists ext. rewrite Hrun. split; [exact E | exact H].
Defined.

(** A browser that cannot be closed: the exception of [browser.close()]
    escapes [upload_sources], after the state was saved. *)
Lemma upload_sources_raises_witness :
  exists ext c,
    trace (snd (upload_sources (page_browser crashed_page) ascii_lower scalar_repr
                  "my notes" (JArr two_requests) true signed_in)) = ext /\
    In (Ev c (inl (mkExn OtherException
                     "Target page, context or browser has been closed"))) ext /\
    session_call
      (Ev c (inl (mkExn OtherException
                    "Target page, context or browser has been closed"))) = true.
Proof.
  destruct (upload_sources_raises (page_browser crashed_page) ascii_lower scalar_repr
              "my notes" (JArr two_requests) true signed_in)
    as (ext & T & H & _).
  assert (Hrun : fst (upload_sources (page_browser crashed_page) ascii_lower scalar_repr
                        "my notes" (JArr two_requests) true signed_in) =
                 Raised (mkExn OtherException
                           "Target page, context or browser has been closed")).
  { vm_compute. reflexivity. }
  destruct (H _ Hrun) as (c & I & S).
  exists ext, c. split; [exact T|]. split; [exact I | exact S].
Defined.

(** A batch whose second element is a string: the reply says [success]
    False, has the first request in [uploaded], and the error of
    [source.get] on the string. *)
Lemma upload_reply_shape_witness :
  exists r items,
    fst (upload_sources (page_browser studio) ascii_lower scalar_repr "my notes"
           (JArr broken_requests) true signed_in) = Ok (Reply r) /\
    ur_success r = false /\
    ur_uploaded r = [JStr "https://example.org"] /\
    py_iter (JArr broken_requests) = inr items /\
    nth_error items (length (ur_uploaded r) + length (ur_failed r)) =
      Some (JStr "oops").
Proof.
  assert (Hrun : exists w',
             upload_sources (page_browser studio) ascii_lower scalar_repr "my notes"
               (JArr broken_requests) true signed_in =
             (Ok (Reply (mkResults false "my notes" [JStr "https://example.org"] []
                           (Some "'str' object has no attribute 'get'"))), w')).
  { eexists. vm_compute. reflexivity. }
  destruct Hrun as (w' & Hrun).
  destruct (upload_reply_shape (page_browser studio) ascii_lower scalar_repr "my notes"
              (JArr broken_requests) true signed_in w' _ eq_refl Hrun)
    as (r & Hr & _ & _ & _ & Hs).
  injection Hr as <-.
  destruct (Hs eq_refl) as (_ & [(U & _) | (items & s & I & N & _)]);
    [discriminate U|].
  injection I as <-.
  eexists _, _. rewrite Hrun. split; [reflexivity|]. split; [reflexivity|].
  split; [reflexivity|]. split; reflexivity.
Defined.

End UploadMore.


(** ** The interactive login *)

Module InteractiveSpec.

Import Interactive.

Section Runs.

Variable D : desk.

Lemma login_logs_logs (a b : list login_event) (w : login_world) :
  login_logs b (login_logs a w) = login_logs (a ++ b) w.
Proof. unfold login_logs. cbn. now rewrite app_assoc. Qed.

Lemma login_bind_bind {A A' C} (m : L A) (k : A -> L A') (k' : A' -> L C) (w : login_world) :
  login_bind (login_bind m k) k' w = login_bind m (fun a => login_bind (k a) k') w.
Proof. unfold login_bind. now destruct (m w) as [[a|e] w1]. Qed.

Lemma login_bind_pure {A C} (a : A) (k : A -> L C) (w : login_world) :
  login_bind (login_pure a) k w = k a w.
Proof. reflexivity. Qed.

Lemma login_bind_finally {A C} (body : L A) (cleanup : L unit) (k : A -> L C) (w : login_world) :
  login_bind (login_finally body cleanup) k w =
  match body w with
  | (r, w1) =>
      match cleanup w1 with
      | (Upload.Ok _, w2) =>
          match r with
          | Upload.Ok a => k a w2
          | Upload.Raised e => (Upload.Raised e, w2)
          end
      | (Upload.Raised e, w2) => (Upload.Raised e, w2)
      end
  end.
Proof.
  unfold login_bind, login_finally. destruct (body w) as [r w1].
  now destruct (cleanup w1) as [[[]|e] w2].
Qed.

Lemma login_bind_print {C} (line : string) (k : unit -> L C) (w : login_world) :
  login_bind (print line) k w = k tt (login_logs [Stdout line] w).
Proof. reflexivity. Qed.

Lemma login_bind_print_json {C} (d : doc) (k : unit -> L C) (w : login_world) :
  login_bind (print_json d) k w = k tt (login_logs [StdoutJson d] w).
Proof. reflexivity. Qed.

Lemma login_bind_invoke_ok {C} (c : login_call) (k : login_ret c -> L C)
  (w : login_world) (a : login_ret c) :
  D (login_trace w) c = inr a ->
  login_bind (login_invoke D c) k w = k a (login_logs [Asked c (inr a)] w).
Proof. intros H. unfold login_bind, login_invoke. now rewrite H. Qed.

Lemma login_bind_invoke_raised {C} (c : login_call) (k : login_ret c -> L C)
  (w : login_world) (e : exn) :
  D (login_trace w) c = inl e ->
  login_bind (login_invoke D c) k w = (Upload.Raised e, login_logs [Asked c (inl e)] w).
Proof. intros H. unfold login_bind, login_invoke. now rewrite H. Qed.

Lemma login_bind_storage_ok {C} (k : unit -> L C) (w : login_world) (j : json) :
  D (login_trace w) (Playwright (Upload.StorageState get_state_path)) = inr j ->
  login_bind (login_storage_state D get_state_path) k w =
  k tt (login_write j
          (login_logs [Asked (Playwright (Upload.StorageState get_state_path)) (inr j)] w)).
Proof. intros H. unfold login_bind, login_storage_state. now rewrite H. Qed.

Lemma login_bind_storage_raised {C} (k : unit -> L C) (w : login_world) (e : exn) :
  D (login_trace w) (Playwright (Upload.StorageState get_state_path)) = inl e ->
  login_bind (login_storage_state D get_state_path) k w =
  (Upload.Raised e, login_logs [Asked (Playwright (Upload.StorageState get_state_path)) (inl e)] w).
Proof. intros H. unfold login_bind, login_storage_state. now rewrite H. Qed.

End Runs.

Ltac login_next D :=
  match goal with
  | |- context [@login_bind ?A ?C (login_invoke D ?c) ?k ?w] =>
      let H := fresh "H" in
      let e := fresh "e" in
      let a := fresh "a" in
      destruct (D (login_trace w) c) as [e|a] eqn:H;
      [ replace (@login_bind A C (login_invoke D c) k w)
          with (@Upload.Raised C e, login_logs [Asked c (inl e)] w)
          by (symmetry; exact (login_bind_invoke_raised D c k w e H))
      | replace (@login_bind A C (login_invoke D c) k w)
          with (k a (login_logs [Asked c (inr a)] w))
          by (symmetry; exact (login_bind_invoke_ok D c k w a H)) ]
  | |- context [@login_bind ?A ?C (login_storage_state D get_state_path) ?k ?w] =>
      let H := fresh "H" in
      let e := fresh "e" in
      let j := fresh "j" in
      destruct (D (login_trace w) (Playwright (Upload.StorageState get_state_path)))
        as [e|j] eqn:H;
      [ rewrite (login_bind_storage_raised D k w e H)
      | rewrite (login_bind_storage_ok D k w j H) ]
  end.

Ltac login_run D :=
  repeat first
    [ rewrite login_bind_bind
    | rewrite login_bind_pure
    | rewrite login_bind_print
    | rewrite login_bind_print_json
    | rewrite login_bind_finally
    | login_next D
    | progress (cbv beta iota delta [login_pure]; rewrite ?login_logs_logs; cbn [app]) ].

Section Facts.

Variable D : desk.

Lemma authenticate_interactive_run (w : login_world) :
  exists ext,
    login_trace (snd (authenticate_interactive D w)) = login_trace w ++ ext /\
    Forall (fun e => json_line e = false) ext /\
    ((exists r, fst (authenticate_interactive D w) = Upload.Ok r) <->
       existsb login_raising ext = false) /\
    (forall r, fst (authenticate_interactive D w) = Upload.Ok r ->
       r = SavedDoc true ("Authentication state saved to " ^ get_state_path)
             get_state_path /\
       exists line j,
         ext = login_script line j /\
         login_file (snd (authenticate_interactive D w)) = Present (inr j)) /\
    existsb login_close_call ext = existsb login_saved ext /\
    (existsb login_saved ext = false ->
       login_file (snd (authenticate_interactive D w)) = login_file w) /\
    (existsb login_saved ext = true ->
       exists j, login_file (snd (authenticate_interactive D w)) = Present (inr j)).
Proof.
  unfold authenticate_interactive, login_with_playwright. cbv zeta.
  login_run D.
  all: cbn [snd fst login_trace login_logs login_write login_file]; rewrite <- ?app_assoc;
    cbn [app]; eexists; (split; [reflexivity|]).
  all: split; [repeat constructor|].
  all: split; [split; [intros [r [=]]; try reflexivity | intros [=]; eauto]|].
  all: split;
    [ intros r Hr;
      first [ discriminate Hr
            | injection Hr as <-; split; [reflexivity|];
              destruct a, a0, a1, a2, a3, a5, a6; do 2 eexists; split; reflexivity ]|].
  all: repeat split; intros; try reflexivity; try discriminate; eauto.
Qed.

Lemma existsb_none {X} (f : X -> bool) (l : list X) :
  Forall (fun x => f x = false) l -> existsb f l = false.
Proof. induction 1 as [|x l Hx _ IH]; [reflexivity|]. cbn. now rewrite Hx, IH. Qed.

(** X10. Every run of [authenticate_interactive]. It returns exactly when
    no call raised; the dict it returns then says [success] whatever the
    person typed and whatever state the browser saved: the login is not
    checked. [browser.close()] is called exactly when
    [context.storage_state] has returned, so a failure between the launch
    and the saving of the state leaves the browser open. The state file
    is rewritten by a [storage_state] that returns and by nothing else: a
    run that fails before leaves the file as it was. Nothing is printed as
    a JSON document by the function itself. *)
Theorem authenticate_interactive_outcome (w : login_world) :
  exists ext,
    login_trace (snd (authenticate_interactive D w)) = login_trace w ++ ext /\
    Forall (fun e => json_line e = false) ext /\
    ((exists r, fst (authenticate_interactive D w) = Upload.Ok r) <->
       existsb login_raising ext = false) /\
    (forall r, fst (authenticate_interactive D w) = Upload.Ok r ->
       r = SavedDoc true ("Authentication state saved to " ^ get_state_path)
             get_state_path /\
       exists line j,
         ext = login_script line j /\
         login_file (snd (authenticate_interactive D w)) = Present (inr j)) /\
    existsb login_close_call ext = existsb login_saved ext /\
    (existsb login_saved ext = false ->
       login_file (snd (authenticate_interactive D w)) = login_file w) /\
    (existsb login_saved ext = true ->
       exists j, login_file (snd (authenticate_interactive D w)) = Present (inr j)).
Proof. exact (authenticate_interactive_run w). Qed.

(** X11. From the login to the other commands. When
    [authenticate_interactive] returns, the state file holds the state
    [j] the browser handed to [storage_state], and the dict says
    [success]. Yet [check_auth_status] on that file answers
    [authenticated] only when [j] has a cookie whose domain contains
    "google"; and whatever [j] is, [upload_sources] and [list_notebooks]
    of the upload script, which read the same file, no longer refuse:
    they start Playwright. *)
Theorem login_then_use (w w' : login_world) (r : doc)
  (B : Upload.browser) (lower : string -> string) (repr : json -> string)
  (notebook_name : string) (sources : json) (headless : bool) (u : Upload.world) :
  authenticate_interactive D w = (Upload.Ok r, w') ->
  Upload.state_file u = login_file w' ->
  exists j,
    r = SavedDoc true ("Authentication state saved to " ^ get_state_path)
          get_state_path /\
    In (Asked (Playwright (Upload.StorageState get_state_path)) (inr j)) (login_trace w') /\
    login_file w' = Present (inr j) /\
    (Auth.authenticated (Auth.check_auth_status (login_file w')) = true <->
       exists c cs, Auth.google_cookies j = inr (c :: cs)) /\
    (exists rest,
       Upload.trace
         (snd (Upload.upload_sources B lower repr notebook_name sources headless u)) =
       Upload.trace u ++
       Upload.Ev Upload.PlaywrightStart (B (Upload.trace u) Upload.PlaywrightStart)
       :: rest) /\
    (exists rest,
       Upload.trace (snd (Upload.list_notebooks B headless u)) =
       Upload.trace u ++
       Upload.Ev Upload.PlaywrightStart (B (Upload.trace u) Upload.PlaywrightStart)
       :: rest).
Proof.
  intros Hrun Hu.
  destruct (authenticate_interactive_run w) as (ext & T & _ & _ & Hok & _).
  rewrite Hrun in T, Hok. cbn [fst snd] in T, Hok.
  destruct (Hok r eq_refl) as (-> & line & j & -> & S).
  exists j. split; [reflexivity|]. split.
  { rewrite T. apply in_or_app. right. unfold login_script. cbn [In].
    do 13 right. left. reflexivity. }
  split; [exact S|]. split.
  { rewrite S. unfold Auth.check_auth_status. cbn [bindE].
    destruct (Auth.google_cookies j) as [e|[|c cs]]; cbn; split;
      try discriminate; eauto; try (intros (c' & cs' & [=])). }
  apply UploadMore.entry_points_start. rewrite Hu, S. reflexivity.
Qed.

(** X12. What [main] of notebooklm_auth.py writes and how it ends. When it
    returns or exits, the last thing on the standard output is one JSON
    document and no other JSON document comes before it. The exit status
    is 1 only when the action is missing from the command line; an
    unknown action is reported by an error document and the process ends
    normally. For every action but "authenticate" the document is all
    there is: no call reaches a browser and the state file is not
    written. For "authenticate" the banner of the login is printed on the
    same standard output before the document; and when a call raises
    there, [main] raises and prints no document at all. *)
Theorem main_output (argv : list string) (w : login_world) :
  exists ext,
    login_trace (snd (main D argv w)) = login_trace w ++ ext /\
    (forall st, fst (main D argv w) = Upload.Ok st ->
       exists pre d,
         ext = pre ++ [StdoutJson d] /\
         existsb json_line pre = false /\
         (st = Exited 1 <-> length argv < 2) /\
         (st = Finished <-> 2 <= length argv) /\
         (length argv < 2 ->
            d = ErrorDoc "Usage: notebooklm_auth.py <check|authenticate>") /\
         (nth_error argv 1 = Some "check" ->
            d = CheckDoc (Auth.check_auth_status (login_file w))) /\
         (forall action,
            nth_error argv 1 = Some action ->
            action <> "check" -> action <> "authenticate" ->
            d = ErrorDoc ("Unknown action: " ^ action)) /\
         (nth_error argv 1 <> Some "authenticate" ->
            pre = [] /\ login_file (snd (main D argv w)) = login_file w) /\
         (nth_error argv 1 = Some "authenticate" ->
            existsb text_line pre = true /\ existsb is_call pre = true)) /\
    (forall e, fst (main D argv w) = Upload.Raised e ->
       nth_error argv 1 = Some "authenticate" /\
       existsb json_line ext = false).
Proof.
  destruct argv as [|prog [|action rest]].
  - exists [StdoutJson (ErrorDoc "Usage: notebooklm_auth.py <check|authenticate>")].
    split; [reflexivity|]. split; [|discriminate].
    intros st [= <-]. exists [], (ErrorDoc "Usage: notebooklm_auth.py <check|authenticate>").
    cbn. repeat split; intros; try reflexivity; try discriminate; try lia.
  - exists [StdoutJson (ErrorDoc "Usage: notebooklm_auth.py <check|authenticate>")].
    split; [reflexivity|]. split; [|discriminate].
    intros st [= <-]. exists [], (ErrorDoc "Usage: notebooklm_auth.py <check|authenticate>").
    cbn. repeat split; intros; try reflexivity; try discriminate; try lia.
  - cbn [main nth_error length].
    destruct (String.eqb action "check") eqn:Ec;
      [|destruct (String.eqb action "authenticate") eqn:Ea].
    + apply String.eqb_eq in Ec. subst action.
      exists [StdoutJson (CheckDoc (Auth.check_auth_status (login_file w)))].
      split; [reflexivity|]. split; [|discriminate].
      intros st [= <-]. exists [], (CheckDoc (Auth.check_auth_status (login_file w))).
      cbn [length app existsb]. repeat split; intros; try reflexivity;
        try discriminate; try lia; congruence.
    + apply String.eqb_eq in Ea. subst action.
      destruct (authenticate_interactive_run w) as (ext & T & J & _ & Hok & _).
      unfold login_bind.
      destruct (authenticate_interactive D w) as [[r|e] w1]; cbn [fst snd] in T, Hok.
      * destruct (Hok r eq_refl) as (_ & line & j & -> & _).
        exists (login_script line j ++ [StdoutJson r]).
        cbn [print_json login_pure fst snd login_trace login_logs login_file].
        split; [rewrite T; symmetry; apply app_assoc|]. split; [|discriminate].
        intros st [= <-]. exists (login_script line j), r.
        split; [reflexivity|]. split; [apply existsb_none; exact J|].
        cbn [length]. repeat split; intros; try reflexivity; try discriminate;
          try lia; congruence.
      * exists ext. cbn [fst snd]. split; [exact T|]. split; [discriminate|].
        intros e' _. split; [reflexivity | apply existsb_none; exact J].
    + apply String.eqb_neq in Ec. apply String.eqb_neq in Ea.
      exists [StdoutJson (ErrorDoc ("Unknown action: " ^ action))].
      split; [reflexivity|]. split; [|discriminate].
      intros st [= <-]. exists [], (ErrorDoc ("Unknown action: " ^ action)).
      cbn [length app existsb]. repeat split; intros; try reflexivity;
        try discriminate; try lia; congruence.
Qed.

End Facts.

(** A first login in which no cookie is saved: the dict says success,
    the file is written, and the upload script goes to the browser. *)
Lemma login_then_use_witness :
  exists j rest,
    login_file (snd (authenticate_interactive (person nothing_raises empty_session)
                       first_time)) = Present (inr j) /\
    Auth.authenticated (Auth.check_auth_status (Present (inr j))) = false /\
    Upload.trace
      (snd (Upload.upload_sources (Upload.page_browser Upload.studio)
              Upload.ascii_lower Upload.scalar_repr "my notes"
              (JArr Upload.two_requests) true
              (Upload.fresh (Present (inr empty_session))))) =
    Upload.Ev Upload.PlaywrightStart (inr tt) :: rest.
Proof.
  assert (Hrun : exists r w',
             authenticate_interactive (person nothing_raises empty_session) first_time =
             (Upload.Ok r, w') /\ login_file w' = Present (inr empty_session)).
  { eexists _, _. split; vm_compute; reflexivity. }
  destruct Hrun as (r & w' & Hrun & S).
  destruct (login_then_use (person nothing_raises empty_session) first_time w' r
              (Upload.page_browser Upload.studio) Upload.ascii_lower
              Upload.scalar_repr "my notes" (JArr Upload.two_requests) true
              (Upload.fresh (Present (inr empty_session)))
              Hrun (eq_sym S))
    as (j & _ & _ & Sj & _ & (rest & U) & _).
  exists j, rest. rewrite Hrun. split; [exact Sj|].
  split; [|exact U].
  rewrite S in Sj. injection Sj as <-. reflexivity.
Defined.

(** Started without a terminal, [input()] raises: nothing is saved and
    the browser that was launched is not closed. *)
Example login_without_terminal :
  fst (authenticate_interactive (person no_terminal empty_session) first_time) =
    Upload.Raised (mkExn OtherException "EOF when reading a line") /\
  login_file (snd (authenticate_interactive (person no_terminal empty_session)
                     first_time)) = Absent /\
  existsb login_close_call
    (login_trace (snd (authenticate_interactive (person no_terminal empty_session)
                         first_time))) = false.
Proof. repeat split; vm_compute; reflexivity. Qed.

End InteractiveSpec.

(** ** More on the authentication check *)

Module AuthMore.

Import Auth AuthSpec.

(** X13. The check on any decoded state whose [cookies] is a list,
    whatever the cookies are. It answers [authenticated] exactly when
    the condition ['google' in c.get('domain', '')] can be evaluated on
    every cookie of the list and is true on at least one;
    [cookie_count] is then the number of cookies on which it is true.
    One cookie on which the condition raises voids the whole check,
    wherever it stands in the list and whatever the other cookies are:
    the answer is then [authenticated = False] with the text of the
    exception of the first such cookie. *)
Theorem check_auth_status_by_cookie
  (fields : list (string * json)) (cookies : list json) :
  dict_get fields "cookies" (JArr []) = JArr cookies ->
  let r := check_auth_status (Present (inr (JObj fields))) in
  (authenticated r = true <->
     Forall (fun c => exists hit, cookie_hit c = inr hit) cookies /\
     existsb hits cookies = true) /\
  (authenticated r = true ->
     cookie_count r = Some (length (filter hits cookies))) /\
  (forall before c after e,
     cookies = before ++ c :: after ->
     Forall (fun c => exists hit, cookie_hit c = inr hit) before ->
     cookie_hit c = inl e ->
     r = mkAuth false ("Error reading state: " ^ exn_text e) None).
Proof.
  intros Hc. cbv zeta.
  assert (E : check_auth_status (Present (inr (JObj fields))) =
              match keep_google cookies with
              | inr [] =>
                  mkAuth false "No Google cookies found in state. Re-authenticate." None
              | inr (c :: cs) =>
                  mkAuth true "Authentication state found." (Some (length (c :: cs)))
              | inl e => mkAuth false ("Error reading state: " ^ exn_text e) None
              end).
  { unfold check_auth_status, google_cookies, bindE, py_get. rewrite Hc. reflexivity. }
  rewrite E. split; [|split].
  - split.
    + intros A. destruct (keep_google cookies) as [e|kept] eqn:K; [discriminate|].
      pose proof (keep_google_returns _ _ K) as F. split; [exact F|].
      rewrite (keep_google_evaluated _ F) in K. injection K as <-.
      destruct (existsb hits cookies) eqn:X; [reflexivity|].
      apply filter_nil_existsb in X. rewrite X in A. discriminate.
    + intros [F X]. rewrite (keep_google_evaluated _ F).
      destruct (filter hits cookies) as [|c cs] eqn:K; [|reflexivity].
      apply filter_nil_existsb in K. congruence.
  - intros A. destruct (keep_google cookies) as [e|kept] eqn:K; [discriminate|].
    rewrite (keep_google_evaluated _ (keep_google_returns _ _ K)) in K.
    injection K as <-. destruct (filter hits cookies); [discriminate | reflexivity].
  - intros before c after e -> F He. now rewrite (keep_google_raises _ _ _ _ F He).
Qed.

(** At [null_domain_state]: the first cookie is a Google cookie, the
    second has a [null] domain, and the check fails. *)
Lemma check_auth_status_by_cookie_witness :
  check_auth_status (Present (inr null_domain_state)) =
  mkAuth false "Error reading state: argument of type 'NoneType' is not iterable" None.
Proof.
  destruct (check_auth_status_by_cookie
              [("cookies", JArr [cookie ".google.com"; JObj [("domain", JNull)]])]
              [cookie ".google.com"; JObj [("domain", JNull)]] eq_refl)
    as (_ & _ & H).
  apply (H [cookie ".google.com"] (JObj [("domain", JNull)]) []
           (TypeError "argument of type 'NoneType' is not iterable")).
  - reflexivity.
  - constructor; [exists true; reflexivity | constructor].
  - reflexivity.
Defined.

End AuthMore.
